(** * Indentation markers for CodeMirror: the pattern composer and the
      regeneration scheduler of [src/index.ts]

    The development follows the source file top-down:

    - [createGradient] and [makeBackgroundCSS] (the pattern composer), as
      string-building functions, together with the list of gradient layers
      that [makeBackgroundCSS] pushes on its [backgrounds] array;
    - the plugin class [IndentMarkersClass]: [update], [generate] and the
      [read] / [write] callbacks handed to the host's [requestMeasure],
      written in state-passing style over an explicit [World].

    Numbers are JavaScript numbers in the source.  Levels, columns, line
    numbers and document positions are integers there and are [Z] here.
    Pixel quantities (marker thickness, measured coordinates) are [Z] too:
    whole CSS pixels; every statement below uses only subtraction and the
    default [0] on them.  Lengths that need halves (the [.5ch] offset of a
    gradient) are evaluated in [Q]. *)

From Stdlib Require Import ZArith List String Ascii Bool Lia QArith.
From Stdlib Require Import DecimalString Sorted.
Import ListNotations.

Local Open Scope string_scope.
Local Open Scope Z_scope.

Set Implicit Arguments.

(* ================================================================= *)
(** ** Template literals *)

(** [`${n}`] for an integer [n]: its decimal numeral, with a leading minus
    sign for negative numbers. *)
Definition numberToString (n : Z) : string :=
  NilZero.string_of_int (Z.to_int n).

(** [Array.prototype.join]. *)
Definition join (sep : string) (parts : list string) : string :=
  String.concat sep parts.

(* ================================================================= *)
(** ** Data model *)

(** [IndentEntry] of [./map], restricted to the two fields that
    [makeBackgroundCSS] destructures.  [active] is [undefined] when the line
    is outside the active block. *)
Record IndentEntry : Type := mkIndentEntry {
  level : Z;
  active : option Z
}.

(** The two custom properties a gradient can be drawn with. *)
Inductive ColorRole : Type :=
| Normal   (* '--indent-marker-bg-color' *)
| Active.  (* '--indent-marker-active-bg-color' *)

Definition markerCssProperty (role : ColorRole) : string :=
  match role with
  | Normal => "--indent-marker-bg-color"
  | Active => "--indent-marker-active-bg-color"
  end.

(** One call of [createGradient], without the two arguments that are the
    same for every call of a line ([thickness], [indentWidth]): the colour,
    the first column ([startOffset]) and the number of columns. *)
Record Layer : Type := mkLayer {
  colorRole : ColorRole;
  columnStart : Z;
  columnCount : Z
}.

(* ================================================================= *)
(** ** [createGradient] *)

Definition createGradient (markerCssProperty : string) (thickness : Z)
    (indentWidth : string) (startOffset columns : Z) : string :=
  let gradient :=
    "repeating-linear-gradient(to right, var(" ++ markerCssProperty ++ ") 0 "
      ++ numberToString thickness ++ "px, transparent "
      ++ numberToString thickness ++ "px " ++ indentWidth ++ ")" in
  (* Subtract one pixel from the background width to get rid of artifacts
     of pixel rounding *)
  gradient ++ " calc(" ++ numberToString startOffset ++ " * " ++ indentWidth
    ++ " + .5ch)/calc(" ++ indentWidth ++ " * " ++ numberToString columns
    ++ " - 1px) no-repeat".

(* ================================================================= *)
(** ** [makeBackgroundCSS] *)

Section Backgrounds.

(** The body of [makeBackgroundCSS] after its early return, lines 73-95: the
    contents of the [backgrounds] array when the pushes are done.  The
    function is written once, over what a call of [createGradient] with a
    given colour, start column and column count stands for, so that the
    strings of the source and the typed layers are the same code. *)
Context {G : Type}.
Variable gradient : ColorRole -> Z -> Z -> G.

Definition backgrounds (entry : IndentEntry) (hideFirstIndent : bool)
  : list G :=
  let startAt := if hideFirstIndent then 1 else 0 in
  match active entry with
  | Some active =>
      let markersBeforeActive := active - startAt - 1 in
      (if 0 <? markersBeforeActive
       then [gradient Normal startAt markersBeforeActive]
       else [])
      ++ [gradient Active (active - 1) 1]
      ++ (if negb (active =? level entry)
          then [gradient Normal active (level entry - active)]
          else [])
  | None =>
      [gradient Normal startAt (level entry - startAt)]
  end.

End Backgrounds.

(** The gradient string of one layer. *)
Definition layerGradient (thickness : Z) (indentWidth : string) (l : Layer)
  : string :=
  createGradient (markerCssProperty (colorRole l)) thickness indentWidth
    (columnStart l) (columnCount l).

Definition makeBackgroundCSS (entry : IndentEntry) (indentWidth : string)
    (hideFirstIndent : bool) (thickness : Z) : string :=
  if hideFirstIndent && (level entry =? 0) then EmptyString
  else
    join ","
      (backgrounds
         (fun role startOffset columns =>
            createGradient (markerCssProperty role) thickness indentWidth
              startOffset columns)
         entry hideFirstIndent).

(** The pattern of a line as an ordered list of layers: the same control
    flow, recording the arguments of each [createGradient] call. *)
Definition compose (entry : IndentEntry) (hideFirstIndent : bool)
  : list Layer :=
  if hideFirstIndent && (level entry =? 0) then []
  else backgrounds mkLayer entry hideFirstIndent.

(** [startAt] of the source, for the statements. *)
Definition startAt (hideFirstIndent : bool) : Z :=
  if hideFirstIndent then 1 else 0.

(** Columns covered by a layer:
    [columnStart <= c < columnStart + columnCount]. *)
Definition covers (l : Layer) (c : Z) : Prop :=
  columnStart l <= c < columnStart l + columnCount l.

Definition coversb (l : Layer) (c : Z) : bool :=
  (columnStart l <=? c) && (c <? columnStart l + columnCount l).

(** Two layers never draw the same column. *)
Definition disjoint (l1 l2 : Layer) : Prop :=
  forall c, ~ (covers l1 c /\ covers l2 c).

(** The descriptor invariant of the data model: [level >= 0], and [active],
    when present, lies in [[1, level]]. *)
Definition wellFormed (entry : IndentEntry) : Prop :=
  0 <= level entry /\
  match active entry with
  | Some a => 1 <= a <= level entry
  | None => True
  end.

(* ================================================================= *)
(** ** Geometry of one gradient *)

(** The two [calc()] expressions of [createGradient], as terms: a number, a
    length in pixels, the length [.5ch], products, sums and differences.
    [indentWidth] is the text [`${width}px`] built by [generate], so it is
    the term [Px width]. *)
Inductive Calc : Type :=
| Num (n : Z)
| Px (n : Z)
| HalfCh
| Mul (a b : Calc)
| Add (a b : Calc)
| Sub (a b : Calc).

(** The text of a term, as it stands between [calc(] and [)]. *)
Fixpoint printCalc (e : Calc) : string :=
  match e with
  | Num n => numberToString n
  | Px n => numberToString n ++ "px"
  | HalfCh => ".5ch"
  | Mul a b => printCalc a ++ " * " ++ printCalc b
  | Add a b => printCalc a ++ " + " ++ printCalc b
  | Sub a b => printCalc a ++ " - " ++ printCalc b
  end.

(** The value of a term in pixels, for a font whose [ch] unit is [ch]
    pixels wide. *)
Fixpoint evalCalc (ch : Q) (e : Calc) : Q :=
  match e with
  | Num n => inject_Z n
  | Px n => inject_Z n
  | HalfCh => ((1 # 2) * ch)%Q
  | Mul a b => (evalCalc ch a * evalCalc ch b)%Q
  | Add a b => (evalCalc ch a + evalCalc ch b)%Q
  | Sub a b => (evalCalc ch a - evalCalc ch b)%Q
  end.

(** Background position of a gradient:
    [calc(startOffset * indentWidth + .5ch)]. *)
Definition gradientPosition (width startOffset : Z) : Calc :=
  Add (Mul (Num startOffset) (Px width)) HalfCh.

(** Background size of a gradient: [calc(indentWidth * columns - 1px)]. *)
Definition gradientSize (width columns : Z) : Calc :=
  Sub (Mul (Px width) (Num columns)) (Px 1).

(** The image of a gradient: the colour from [0] to [thickness] pixels, then
    transparent up to [indentWidth], repeated. *)
Definition gradientImage (markerCssProperty : string) (thickness width : Z)
  : string :=
  "repeating-linear-gradient(to right, var(" ++ markerCssProperty ++ ") 0 "
    ++ printCalc (Px thickness) ++ ", transparent "
    ++ printCalc (Px thickness) ++ " " ++ printCalc (Px width) ++ ")".

(** Distance in pixels from the left edge of the line box to the left edge
    of the [j]-th stripe of a gradient, the stripe of column
    [startOffset + j]: the image starts at its background position and
    repeats every [width] pixels. *)
Definition stripeLeft (ch : Q) (width startOffset j : Z) : Q :=
  (evalCalc ch (gradientPosition width startOffset)
   + inject_Z j * evalCalc ch (Px width))%Q.

(** Width in pixels of the span a gradient covers. *)
Definition coveredWidth (ch : Q) (width columns : Z) : Q :=
  evalCalc ch (gradientSize width columns).

(* ================================================================= *)
(** ** The host interface and the plugin state *)

(** [Line] of [@codemirror/state], with the fields the plugin reads. *)
Record Line : Type := mkLine {
  number : Z;
  from : Z;
  text : string
}.

(** [Rect], the answer of [coordsAtPos]. *)
Record Rect : Type := mkRect {
  left : Z;
  right : Z;
  top : Z;
  bottom : Z
}.

(** [Decoration.line({class, attributes: {style}})]. *)
Record Decoration : Type := mkDecoration {
  class : string;
  style : string
}.

(** A range of a [RangeSetBuilder]: [builder.add(from, to, value)]. *)
Record Range : Type := mkRange {
  rangeFrom : Z;
  rangeTo : Z;
  rangeValue : Decoration
}.

(** A builder holds the ranges in the order they were added; [finish]
    returns them as a [DecorationSet].  [Decoration.none] is the empty set. *)
Definition RangeSetBuilder : Type := list Range.
Definition DecorationSet : Type := list Range.

Definition finish (builder : RangeSetBuilder) : DecorationSet := builder.

(** The width that [generate] measures for one line, lines 152-154:
    [(coordsAtPos(from + length)?.left ?? 0)
     - (coordsAtPos(from)?.left ?? 0)]. *)
Definition measuredWidth (afterUnit lineStart : option Rect) : Z :=
  (match afterUnit with Some r => left r | None => 0 end)
  - (match lineStart with Some r => left r | None => 0 end).

(** The resolved value of the [indentationMarkerConfig] facet of
    [./config], over the type of its [markerType] option. *)
Record IndentationMarkerConfiguration (MarkerType : Type) : Type := mkConfig {
  hideFirstIndent : bool;
  highlightActiveBlock : bool;
  markerType : MarkerType;
  thickness : Z
}.

(** The object handed to [requestMeasure]: what its [read] and [write]
    closures capture from [generate], with the builder they share. *)
Record MeasureRequest : Type := mkRequest {
  reqBuilder : RangeSetBuilder;
  reqLines : list Line;
  reqMap : Z -> option IndentEntry;
  reqHideFirstIndent : bool;
  reqThickness : Z
}.

(** The [EditorView] the plugin holds, over the type of editor states: its
    current state, the layout that answers [coordsAtPos], the focus, and
    the queue of measure requests. *)
Record EditorView (EditorState : Type) : Type := mkView {
  viewState : EditorState;
  layout : Z -> option Rect;
  hasFocus : bool;
  measureRequests : list MeasureRequest
}.

(** What [index.ts] imports and does not define: the editor state of the
    host and the facets read from it ([@codemirror/state],
    [@codemirror/language]), and the helpers of [./utils], [./map] and
    [./config].  [IndentationMap lines state unitWidth markerType] is the
    [get] method of the map built by [new IndentationMap(...)]. *)
Record Host : Type := mkHost {
  EditorState : Type;
  MarkerType : Type;
  getIndentUnit : EditorState -> Z;
  indentUnit : EditorState -> string;
  indentationMarkerConfig :
    EditorState -> IndentationMarkerConfiguration MarkerType;
  getCurrentLine : EditorState -> Line;
  getVisibleLines : EditorView EditorState -> EditorState -> list Line;
  IndentationMap :
    list Line -> EditorState -> Z -> MarkerType -> Z -> option IndentEntry
}.

(** The fields of [IndentMarkersClass], the shared view apart. *)
Record IndentMarkersClass : Type := mkPlugin {
  decorations : DecorationSet;
  unitWidth : Z;
  currentLineNumber : Z
}.

(** Everything the methods can read or change: the plugin's fields, the
    view, the console, and the record of the layout queries made so far
    (the positions [coordsAtPos] was called with). *)
Record World (EditorState : Type) : Type := mkWorld {
  plugin : IndentMarkersClass;
  view : EditorView EditorState;
  console : list (string * Z);
  layoutQueries : list Z
}.

(** [ViewUpdate], with the fields [update] reads. *)
Record ViewUpdate (EditorState : Type) : Type := mkUpdate {
  updateState : EditorState;
  docChanged : bool;
  viewportChanged : bool
}.

Section Plugin.

Variable host : Host.

(** *** State passing *)

Definition M (A : Type) : Type :=
  World (EditorState host) -> A * World (EditorState host).

Definition ret {A : Type} (a : A) : M A := fun w => (a, w).

Definition bind {A B : Type} (m : M A) (k : A -> M B) : M B :=
  fun w => let (a, w') := m w in k a w'.

Notation "x <- m ;; k" := (bind m (fun x => k))
  (at level 61, m at next level, right associativity).
Notation "m ;;; k" := (bind m (fun _ => k))
  (at level 61, right associativity).

Definition gets {A : Type} (f : World (EditorState host) -> A) : M A :=
  fun w => (f w, w).

Definition modify (f : World (EditorState host) -> World (EditorState host))
  : M unit :=
  fun w => (tt, f w).

Definition setPlugin (p : IndentMarkersClass) (w : World (EditorState host))
  : World (EditorState host) :=
  mkWorld p (view w) (console w) (layoutQueries w).

Definition setView (v : EditorView (EditorState host))
    (w : World (EditorState host)) : World (EditorState host) :=
  mkWorld (plugin w) v (console w) (layoutQueries w).

(** [this.view.coordsAtPos(pos)]: a layout query. *)
Definition coordsAtPos (pos : Z) : M (option Rect) :=
  fun w =>
    (layout (view w) pos,
     mkWorld (plugin w) (view w) (console w) (layoutQueries w ++ [pos])%list).

(** [console.log(label, value)]. *)
Definition consoleLog (label : string) (value : Z) : M unit :=
  modify (fun w =>
    mkWorld (plugin w) (view w) (console w ++ [(label, value)])%list
      (layoutQueries w)).

(** [this.view.focus()]. *)
Definition focus : M unit :=
  modify (fun w =>
    setView (mkView (viewState (view w)) (layout (view w)) true
               (measureRequests (view w))) w).

(** [this.view.requestMeasure(request)]: the request joins the queue. *)
Definition requestMeasure (request : MeasureRequest) : M unit :=
  modify (fun w =>
    setView (mkView (viewState (view w)) (layout (view w)) (hasFocus (view w))
               (measureRequests (view w) ++ [request])%list) w).

(** *** [addBackground] *)

Definition addBackground (builder : RangeSetBuilder) (line : Line)
    (backgrounds : string) : RangeSetBuilder :=
  (builder ++
   [mkRange (from line) (from line)
      (mkDecoration "cm-indent-markers"
         ("--indent-markers: " ++ backgrounds))])%list.

(** *** [generate]: the [read] callback *)

(** One turn of the loop over [lines], lines 145-157. *)
Definition readLine (indentUnitString : string) (request : MeasureRequest)
    (builder : RangeSetBuilder) (line : Line) : M RangeSetBuilder :=
  match reqMap request (number line) with
  | None => ret builder                          (* !entry?.level: continue *)
  | Some entry =>
      if level entry =? 0 then ret builder       (* !entry?.level: continue *)
      else if negb (String.prefix indentUnitString (text line))
      then ret builder                           (* continue *)
      else
        afterUnit <-
          coordsAtPos (from line + Z.of_nat (String.length indentUnitString)) ;;
        lineStart <- coordsAtPos (from line) ;;
        let width := measuredWidth afterUnit lineStart in
        consoleLog "width" width ;;;
        let backgrounds :=
          makeBackgroundCSS entry (numberToString width ++ "px")
            (reqHideFirstIndent request) (reqThickness request) in
        ret (addBackground builder line backgrounds)
  end.

Fixpoint readLines (indentUnitString : string) (request : MeasureRequest)
    (builder : RangeSetBuilder) (lines : list Line) : M RangeSetBuilder :=
  match lines with
  | [] => ret builder
  | line :: rest =>
      builder' <- readLine indentUnitString request builder line ;;
      readLines indentUnitString request builder' rest
  end.

(** The [read] callback: it leaves its result in the shared builder. *)
Definition read (request : MeasureRequest) : M MeasureRequest :=
  indentUnitString <- gets (fun w => indentUnit host (viewState (view w))) ;;
  builder <-
    readLines indentUnitString request (reqBuilder request)
      (reqLines request) ;;
  ret (mkRequest builder (reqLines request) (reqMap request)
         (reqHideFirstIndent request) (reqThickness request)).

(** *** [generate]: the [write] callback *)

Definition write (request : MeasureRequest) : M unit :=
  modify (fun w =>
    setPlugin (mkPlugin (finish (reqBuilder request)) (unitWidth (plugin w))
                 (currentLineNumber (plugin w))) w) ;;;
  (* Schedule an update. I'm not sure how to do this properly. *)
  focus.

(** The host runs the two callbacks of a request one after the other:
    [read], then [write]. *)
Definition measure (request : MeasureRequest) : M unit :=
  request' <- read request ;;
  write request'.

(** *** [generate] *)

Definition generate (state : EditorState host) : M unit :=
  let builder : RangeSetBuilder := [] in
  lines <- gets (fun w => getVisibleLines host (view w) state) ;;
  let config := indentationMarkerConfig host state in
  map <- gets (fun w =>
           IndentationMap host lines state (unitWidth (plugin w))
             (markerType config)) ;;
  requestMeasure
    (mkRequest builder lines map (hideFirstIndent config) (thickness config)).

(** *** [constructor] *)

Definition constructor (view0 : EditorView (EditorState host))
  : World (EditorState host) :=
  let w :=
    mkWorld
      (mkPlugin [] (getIndentUnit host (viewState view0))
         (number (getCurrentLine host (viewState view0))))
      view0 [] [] in
  snd (generate (viewState view0) w).

(** *** [update] *)

Definition update (u : ViewUpdate (EditorState host)) : M unit :=
  let unitWidth' := getIndentUnit host (updateState u) in
  unitWidthChanged <-
    gets (fun w => negb (unitWidth' =? unitWidth (plugin w))) ;;
  (if unitWidthChanged : bool
   then modify (fun w =>
          setPlugin (mkPlugin (decorations (plugin w)) unitWidth'
                       (currentLineNumber (plugin w))) w)
   else ret tt) ;;;
  let lineNumber := number (getCurrentLine host (updateState u)) in
  lineNumberChanged <-
    gets (fun w => negb (lineNumber =? currentLineNumber (plugin w))) ;;
  modify (fun w =>
    setPlugin (mkPlugin (decorations (plugin w)) (unitWidth (plugin w))
                 lineNumber) w) ;;;
  let activeBlockUpdateRequired :=
    highlightActiveBlock (indentationMarkerConfig host (updateState u))
    && lineNumberChanged in
  if docChanged u || viewportChanged u || unitWidthChanged
     || activeBlockUpdateRequired
  then generate (updateState u)
  else ret tt.

End Plugin.

(* ================================================================= *)
(** ** The composer as the specification words it *)

(** The layers the specification lists for a descriptor whose [active] is
    present: the markers before the active one when there are any, the
    active marker, the markers after it when [active < level]. *)
Definition specActiveLayers (startAt active level : Z) : list Layer :=
  ((if 0 <? active - startAt - 1
    then [mkLayer Normal startAt (active - startAt - 1)]
    else [])
   ++ [mkLayer Active (active - 1) 1]
   ++ (if active <? level
       then [mkLayer Normal active (level - active)]
       else []))%list.

(** The layers the specification lists for a descriptor whose [active] is
    absent: one normal layer, omitted when it has no column. *)
Definition specAbsentLayers (startAt level : Z) : list Layer :=
  if level - startAt <=? 0 then []
  else [mkLayer Normal startAt (level - startAt)].

(** The layers draw pairwise disjoint column ranges, and the columns drawn
    are exactly those of [[lo, hi)]. *)
Definition columnsExactly (lo hi : Z) (layers : list Layer) : Prop :=
  ForallOrdPairs disjoint layers /\
  forall c, Exists (fun l => covers l c) layers <-> lo <= c < hi.

(** The first column a line draws: [startAt], and column [0] when the
    active marker is the outermost one. *)
Definition firstColumn (entry : IndentEntry) (hideFirstIndent : bool) : Z :=
  match active entry with
  | Some a => if hideFirstIndent && (a =? 1) then 0 else startAt hideFirstIndent
  | None => startAt hideFirstIndent
  end.

(** Number of layers drawn with the active colour. *)
Definition activeCount (layers : list Layer) : nat :=
  List.length
    (filter
       (fun l => match colorRole l with Active => true | Normal => false end)
       layers).

(* ================================================================= *)
(** ** The measure phase, line by line *)

(** Whether the loop of [read] reaches the measurement for a line: the map
    has an entry of non-zero level for it, and its text starts with the
    indent unit. *)
Definition calibrated (indentUnitString : string) (request : MeasureRequest)
    (line : Line) : bool :=
  match reqMap request (number line) with
  | Some entry =>
      negb (level entry =? 0) && String.prefix indentUnitString (text line)
  | None => false
  end.

(** The two positions whose coordinates give the width of a line. *)
Definition afterUnitPos (indentUnitString : string) (line : Line) : Z :=
  from line + Z.of_nat (String.length indentUnitString).

Definition lineWidth (layout : Z -> option Rect) (indentUnitString : string)
    (line : Line) : Z :=
  measuredWidth (layout (afterUnitPos indentUnitString line))
    (layout (from line)).

(** The decoration of a calibrated line. *)
Definition lineRange (layout : Z -> option Rect) (indentUnitString : string)
    (request : MeasureRequest) (line : Line) : list Range :=
  match reqMap request (number line) with
  | Some entry =>
      if calibrated indentUnitString request line
      then addBackground [] line
             (makeBackgroundCSS entry
                (numberToString (lineWidth layout indentUnitString line)
                 ++ "px")
                (reqHideFirstIndent request) (reqThickness request))
      else []
  | None => []
  end.

(** What a line adds to the console and to the record of layout queries. *)
Definition lineConsole (layout : Z -> option Rect) (indentUnitString : string)
    (request : MeasureRequest) (line : Line) : list (string * Z) :=
  if calibrated indentUnitString request line
  then [("width", lineWidth layout indentUnitString line)]
  else [].

Definition lineQueries (indentUnitString : string) (request : MeasureRequest)
    (line : Line) : list Z :=
  if calibrated indentUnitString request line
  then [afterUnitPos indentUnitString line; from line]
  else [].

(* ================================================================= *)
(** ** The scheduler's trigger *)

Section Trigger.

Variable host : Host.

(** The condition of [update], lines 124-129, on the update and the two
    remembered scalars. *)
Definition trigger (u : ViewUpdate (EditorState host))
    (w : World (EditorState host)) : Prop :=
  docChanged u = true
  \/ viewportChanged u = true
  \/ getIndentUnit host (updateState u) <> unitWidth (plugin w)
  \/ (highlightActiveBlock (indentationMarkerConfig host (updateState u))
      = true
      /\ number (getCurrentLine host (updateState u))
         <> currentLineNumber (plugin w)).

(** The world once [update] has stored the two scalars of the new state. *)
Definition remembered (u : ViewUpdate (EditorState host))
    (w : World (EditorState host)) : World (EditorState host) :=
  mkWorld
    (mkPlugin (decorations (plugin w)) (getIndentUnit host (updateState u))
       (number (getCurrentLine host (updateState u))))
    (view w) (console w) (layoutQueries w).

(** The request that [generate] hands to [requestMeasure]. *)
Definition generated (state : EditorState host)
    (w : World (EditorState host)) : MeasureRequest :=
  let lines := getVisibleLines host (view w) state in
  let config := indentationMarkerConfig host state in
  mkRequest [] lines
    (IndentationMap host lines state (unitWidth (plugin w))
       (markerType config))
    (hideFirstIndent config) (thickness config).

End Trigger.

(* ================================================================= *)
(** ** An example host *)

(** A host whose editor state is a record of what the plugin asks for: the
    indent unit, the cursor line, the visible lines, the configuration and
    the level of each line. *)
Record ExampleState : Type := mkExampleState {
  exIndentUnit : string;
  exCursor : Line;
  exLines : list Line;
  exConfig : IndentationMarkerConfiguration unit;
  exLevels : Z -> option IndentEntry
}.

Definition exampleHost : Host :=
  mkHost
    (fun st : ExampleState => Z.of_nat (String.length (exIndentUnit st)))
    exIndentUnit
    exConfig
    exCursor
    (fun _ st => exLines st)
    (fun _ st _ _ => exLevels st).

(** Three lines: one indented by two spaces, one by a tab, one not at all. *)
Definition lineSpaces : Line := mkLine 1 0 "  return text".
Definition lineTab : Line := mkLine 2 14 (String (ascii_of_nat 9) "print(1)").
Definition lineTop : Line := mkLine 3 23 "def main():".

Definition exampleLevels (n : Z) : option IndentEntry :=
  if n =? 1 then Some (mkIndentEntry 1 None)
  else if n =? 2 then Some (mkIndentEntry 1 None)
  else if n =? 3 then Some (mkIndentEntry 0 None)
  else None.

Definition exampleState : ExampleState :=
  mkExampleState "  " lineSpaces [lineSpaces; lineTab; lineTop]
    (mkConfig false true tt 1) exampleLevels.

(** A layout that resolves the two positions of the first line. *)
Definition exampleLayout (pos : Z) : option Rect :=
  if pos =? 0 then Some (mkRect 6 6 0 18)
  else if pos =? 2 then Some (mkRect 22 22 0 18)
  else None.

(** A layout that resolves nothing, one that resolves only the position
    after the indent unit of the first line, and one that resolves only
    its start. *)
Definition noLayout (pos : Z) : option Rect := None.

Definition layoutAfterUnitOnly (pos : Z) : option Rect :=
  if pos =? 2 then Some (mkRect 22 22 0 18) else None.

Definition layoutLineStartOnly (pos : Z) : option Rect :=
  if pos =? 0 then Some (mkRect 6 6 0 18) else None.

Definition exampleView (layout : Z -> option Rect) : EditorView ExampleState :=
  mkView exampleState layout false [].

Definition exampleWorld (layout : Z -> option Rect) : World ExampleState :=
  mkWorld (mkPlugin [] 2 1) (exampleView layout) [] [].

Definition exampleRequest : MeasureRequest :=
  generated exampleHost exampleState (exampleWorld exampleLayout).

(* ================================================================= *)
(** ** Reading a pattern column by column *)

(** The colour a list of layers gives to column [c]: that of the first
    layer that covers it, if any. *)
Fixpoint roleAt (layers : list Layer) (c : Z) : option ColorRole :=
  match layers with
  | [] => None
  | l :: rest => if coversb l c then Some (colorRole l) else roleAt rest c
  end.

(** The [j]-th stripe of a gradient image starts [j] periods from the left
    edge of the image; it is drawn when that point lies inside the image,
    whose width is the covered span. *)
Definition stripeDrawn (ch : Q) (width columns j : Z) : Prop :=
  0 <= j /\
  (inject_Z j * evalCalc ch (Px width) < coveredWidth ch width columns)%Q.

(* ================================================================= *)
(** ** [indentTheme] *)

(** The values that occur in the theme: strings, numbers, [undefined]. *)
Inductive JsValue : Type :=
| JUndefined
| JString (s : string)
| JNumber (n : Z).

(** An object literal: its own properties in insertion order. *)
Definition JsObject : Type := list (string * JsValue).

(** [o[key]]: the value of the property, [undefined] when [o] has none. *)
Fixpoint getProp (key : string) (o : JsObject) : JsValue :=
  match o with
  | [] => JUndefined
  | (k, v) :: rest => if String.eqb k key then v else getProp key rest
  end.

(** [key in o]. *)
Fixpoint hasProp (key : string) (o : JsObject) : bool :=
  match o with
  | [] => false
  | (k, _) :: rest => String.eqb k key || hasProp key rest
  end.

(** [o[key] = v]: an existing property keeps its place, a new one is
    added last. *)
Fixpoint setProp (key : string) (v : JsValue) (o : JsObject) : JsObject :=
  match o with
  | [] => [(key, v)]
  | (k, v') :: rest =>
      if String.eqb k key then (k, v) :: rest
      else (k, v') :: setProp key v rest
  end.

(** [{...a, ...b}]: the properties of [a], then those of [b] assigned in
    their order. *)
Definition spread (a b : JsObject) : JsObject :=
  fold_left (fun acc kv => setProp (fst kv) (snd kv) acc) b a.

(** An object has each of its keys once. *)
Definition objectKeysDistinct (o : JsObject) : Prop := NoDup (map fst o).

Definition defaultColors : JsObject :=
  [("light", JString "#F0F1F2");
   ("dark", JString "#2B3245");
   ("activeLight", JString "#E4E5E6");
   ("activeDark", JString "#3C445C")].

(** The two characters of the [content] value of the pseudo-element. *)
Definition emptyCssString : string :=
  String (ascii_of_nat 34) (String (ascii_of_nat 34) EmptyString).

(** The theme specification handed to [EditorView.baseTheme]: its rules by
    selector.  [colorOptions] is [None] when it is [undefined]. *)
Definition indentTheme (colorOptions : option JsObject)
  : list (string * JsObject) :=
  let colors :=
    match colorOptions with
    | Some options => spread defaultColors options
    | None => defaultColors
    end in
  [("&light",
    [("--indent-marker-bg-color", getProp "light" colors);
     ("--indent-marker-active-bg-color", getProp "activeLight" colors)]);
   ("&dark",
    [("--indent-marker-bg-color", getProp "dark" colors);
     ("--indent-marker-active-bg-color", getProp "activeDark" colors)]);
   (".cm-line",
    [("position", JString "relative")]);
   (* this pseudo-element is used to draw the indent markers,
      while still allowing the line to have its own background. *)
   (".cm-indent-markers::before",
    [("content", JString emptyCssString);
     ("position", JString "absolute");
     ("top", JNumber 0);
     ("left", JNumber 0);
     ("right", JNumber 0);
     ("bottom", JNumber 0);
     ("background", JString "var(--indent-markers)");
     ("pointerEvents", JString "none");
     ("zIndex", JString "-1")])].

(** The rule of a selector in a theme specification. *)
Fixpoint getRule (selector : string) (theme : list (string * JsObject))
  : JsObject :=
  match theme with
  | [] => []
  | (sel, rule) :: rest =>
      if String.eqb sel selector then rule else getRule selector rest
  end.

(* ================================================================= *)
(** ** [toggleIndent] of the demo page *)

(** The indent unit that [toggleIndent] of [dev/index.ts] hands to
    [indentConf.reconfigure(indentUnit.of(indent))]: four spaces when the
    indent unit of the state is two columns wide, two spaces otherwise. *)
Definition toggleIndent (host : Host) (state : EditorState host) : string :=
  if getIndentUnit host state =? 2 then "    " else "  ".

(** The example state with another indent unit. *)
Definition exampleStateWith (unit : string) : ExampleState :=
  mkExampleState unit lineSpaces [lineSpaces; lineTab; lineTop]
    (mkConfig false true tt 1) exampleLevels.

(* ================================================================= *)
(** * Facts about the composer *)

Lemma coversb_spec l c : coversb l c = true <-> covers l c.
Proof.
  unfold coversb, covers.
  rewrite andb_true_iff, Z.leb_le, Z.ltb_lt. tauto.
Qed.

(** The pushes commute with any post-processing of the gradients. *)
Lemma backgrounds_map {G H : Type} (f : G -> H) (g : ColorRole -> Z -> Z -> G)
    entry hide :
  backgrounds (fun r s c => f (g r s c)) entry hide
  = map f (backgrounds g entry hide).
Proof.
  unfold backgrounds.
  destruct (active entry) as [a|]; [|reflexivity].
  rewrite !map_app.
  destruct (0 <? _), (negb _); reflexivity.
Qed.

(** The string of the source is the comma-joined rendering of the layers. *)
Lemma makeBackgroundCSS_compose entry indentWidth hide thickness :
  makeBackgroundCSS entry indentWidth hide thickness
  = join "," (map (layerGradient thickness indentWidth) (compose entry hide)).
Proof.
  unfold makeBackgroundCSS, compose.
  destruct (hide && (level entry =? 0)); [reflexivity|].
  rewrite <- backgrounds_map. reflexivity.
Qed.

Lemma createGradient_nonempty p t w s c :
  createGradient p t w s c <> EmptyString.
Proof. unfold createGradient. simpl. discriminate. Qed.

Lemma join_nonempty sep x xs :
  x <> EmptyString -> join sep (x :: xs) <> EmptyString.
Proof.
  intros Hx. unfold join. simpl.
  destruct xs; [assumption|].
  destruct x; [congruence|]. simpl. discriminate.
Qed.

Lemma shortCircuit_iff hide lvl :
  hide && (lvl =? 0) = true <-> hide = true /\ lvl = 0.
Proof. rewrite andb_true_iff, Z.eqb_eq. tauto. Qed.

(** Outside the early return the pushes leave between one and three
    gradients. *)
Lemma backgrounds_length {G : Type} (g : ColorRole -> Z -> Z -> G) entry hide :
  (1 <= List.length (backgrounds g entry hide) <= 3)%nat.
Proof.
  unfold backgrounds.
  destruct (active entry) as [a|]; [|simpl; lia].
  rewrite !length_app.
  destruct (0 <? _), (negb _); simpl; lia.
Qed.

Lemma compose_active entry hide a :
  active entry = Some a -> 1 <= a <= level entry ->
  compose entry hide = specActiveLayers (startAt hide) a (level entry).
Proof.
  intros Ha Hr. unfold compose, backgrounds, specActiveLayers, startAt.
  rewrite Ha.
  replace (level entry =? 0) with false by (symmetry; apply Z.eqb_neq; lia).
  rewrite andb_false_r.
  replace (negb (a =? level entry)) with (a <? level entry); [reflexivity|].
  destruct (Z.eqb_spec a (level entry)); simpl.
  - apply Z.ltb_ge. lia.
  - apply Z.ltb_lt. lia.
Qed.

Lemma specActiveLayers_sorted s a lvl :
  0 <= s ->
  StronglySorted (fun l1 l2 => columnStart l1 < columnStart l2)
    (specActiveLayers s a lvl).
Proof.
  intros Hs. unfold specActiveLayers.
  destruct (Z.ltb_spec 0 (a - s - 1)), (a <? lvl); simpl;
    repeat (constructor; simpl; try lia).
Qed.

(** C1: for a descriptor whose active marker is present, with
    [1 <= active <= level] (so the early return does not apply), the
    composer emits, in column order and at most three: a normal layer
    [{startAt, active - startAt - 1}] only if that count is positive, the
    active layer [{active - 1, 1}] of exactly one column, and a normal layer
    [{active, level - active}] only if [active < level]; the style string
    is the comma-joined rendering of these layers. *)
Theorem compose_active_three_layers entry indentWidth hide thickness a :
  active entry = Some a ->
  1 <= a <= level entry ->
  compose entry hide = specActiveLayers (startAt hide) a (level entry)
  /\ (List.length (compose entry hide) <= 3)%nat
  /\ StronglySorted (fun l1 l2 => columnStart l1 < columnStart l2)
       (compose entry hide)
  /\ makeBackgroundCSS entry indentWidth hide thickness
     = join ","
         (map (layerGradient thickness indentWidth)
            (specActiveLayers (startAt hide) a (level entry))).
Proof.
  intros Ha Hr.
  pose proof (compose_active entry hide Ha Hr) as Hc.
  split; [exact Hc|]. split; [|split].
  - unfold compose. destruct (hide && _); [simpl; lia|].
    apply backgrounds_length.
  - rewrite Hc. apply specActiveLayers_sorted. destruct hide; simpl; lia.
  - rewrite makeBackgroundCSS_compose, Hc. reflexivity.
Qed.

Lemma compose_active_three_layers_witness :
  active (mkIndentEntry 4 (Some 3)) = Some 3
  /\ 1 <= 3 <= level (mkIndentEntry 4 (Some 3))
  /\ compose (mkIndentEntry 4 (Some 3)) false
     = [mkLayer Normal 0 2; mkLayer Active 2 1; mkLayer Normal 3 1].
Proof.
  split; [reflexivity|]. split; [simpl; lia|].
  apply (compose_active_three_layers (mkIndentEntry 4 (Some 3)) "12px" false 1
           (a := 3)); [reflexivity | simpl; lia].
Defined.

Ltac layers_cases :=
  repeat match goal with
         | |- context [if ?b then _ else _] =>
             let E := fresh "E" in destruct b eqn:E
         | H : (_ <? _) = true |- _ => apply Z.ltb_lt in H
         | H : (_ <? _) = false |- _ => apply Z.ltb_ge in H
         | H : (_ =? _) = true |- _ => apply Z.eqb_eq in H
         | H : (_ =? _) = false |- _ => apply Z.eqb_neq in H
         | H : (_ <=? _) = true |- _ => apply Z.leb_le in H
         | H : (_ <=? _) = false |- _ => apply Z.leb_gt in H
         | H : _ && _ = true |- _ => apply andb_true_iff in H; destruct H
         | H : _ && _ = false |- _ => apply andb_false_iff in H
         end.

Ltac columns_solve :=
  unfold columnsExactly, disjoint, covers; split;
  [ repeat (constructor; cbn [columnStart columnCount]; try (intros; lia))
  | intros c; repeat rewrite Exists_cons; rewrite Exists_nil;
    cbn [columnStart columnCount]; lia ].

(** C2 (as amended): for every descriptor with [level >= 0] and [active]
    absent or in [[1, level]], and for both settings of [hideFirstIndent],
    the layers of the composer draw pairwise disjoint column ranges, and
    the columns drawn are exactly [[startAt, level)] -- except that with
    [hideFirstIndent] and [active = 1] the active layer draws column [0]
    as well, so that the columns drawn are [[0, level)]. *)
Theorem compose_columns entry hide :
  wellFormed entry ->
  columnsExactly (firstColumn entry hide) (level entry) (compose entry hide).
Proof.
  intros [Hl Ha]. unfold firstColumn.
  destruct (active entry) as [a|] eqn:Hact.
  - rewrite (compose_active entry hide Hact Ha).
    unfold specActiveLayers, startAt.
    destruct hide; simpl andb; layers_cases; simpl app; columns_solve.
  - unfold compose, backgrounds, startAt. rewrite Hact.
    destruct hide; simpl andb; layers_cases; columns_solve.
Qed.

Lemma compose_columns_witness :
  wellFormed (mkIndentEntry 4 (Some 3))
  /\ columnsExactly 1 4 (compose (mkIndentEntry 4 (Some 3)) true).
Proof.
  assert (H : wellFormed (mkIndentEntry 4 (Some 3)))
    by (unfold wellFormed; simpl; lia).
  split; [exact H|].
  exact (compose_columns (entry := mkIndentEntry 4 (Some 3)) true H).
Defined.

(** C2 (as stated) fails: with [hideFirstIndent], a descriptor of level [1]
    whose active marker is [1] draws column [0], which lies outside
    [[startAt, level) = [1, 1)]. *)
Lemma compose_columns_active_outermost :
  wellFormed (mkIndentEntry 1 (Some 1))
  /\ compose (mkIndentEntry 1 (Some 1)) true = [mkLayer Active 0 1]
  /\ ~ columnsExactly (startAt true) (level (mkIndentEntry 1 (Some 1)))
         (compose (mkIndentEntry 1 (Some 1)) true).
Proof.
  split; [unfold wellFormed; simpl; lia|]. split; [reflexivity|].
  intros [_ Hcov]. specialize (Hcov 0).
  assert (Hex : Exists (fun l => covers l 0)
                  (compose (mkIndentEntry 1 (Some 1)) true)).
  { apply Exists_cons_hd. unfold covers. simpl. lia. }
  apply Hcov in Hex. simpl in Hex. lia.
Qed.

Lemma compose_nil_iff entry hide :
  compose entry hide = [] <-> hide = true /\ level entry = 0.
Proof.
  rewrite <- shortCircuit_iff. unfold compose.
  pose proof (backgrounds_length mkLayer entry hide) as Hlen.
  destruct (hide && (level entry =? 0)); [tauto|].
  split; [|discriminate]. intros He. rewrite He in Hlen. simpl in Hlen. lia.
Qed.

Lemma makeBackgroundCSS_nil_iff entry indentWidth hide thickness :
  makeBackgroundCSS entry indentWidth hide thickness = EmptyString
  <-> hide = true /\ level entry = 0.
Proof.
  rewrite <- compose_nil_iff, makeBackgroundCSS_compose.
  destruct (compose entry hide) as [|l ls]; [simpl; tauto|].
  split; [|discriminate]. intros He. exfalso. revert He. simpl map.
  apply join_nonempty, createGradient_nonempty.
Qed.

(** C3 (as amended): when [active] is absent the composer emits exactly one
    normal layer [{startAt, level - startAt}], unless [hideFirstIndent]
    holds and [level = 0], where it emits nothing.  The layer is emitted
    also when [level - startAt <= 0]: it then draws no column.  When
    [level - startAt > 0] the result is the one the specification lists. *)
Theorem compose_absent entry hide :
  active entry = None ->
  compose entry hide
  = (if hide && (level entry =? 0) then []
     else [mkLayer Normal (startAt hide) (level entry - startAt hide)])
  /\ (level entry - startAt hide <= 0 ->
      forall l c, In l (compose entry hide) -> ~ covers l c)
  /\ (0 < level entry - startAt hide ->
      compose entry hide = specAbsentLayers (startAt hide) (level entry)).
Proof.
  intros Hact.
  assert (Hc : compose entry hide
               = if hide && (level entry =? 0) then []
                 else [mkLayer Normal (startAt hide)
                         (level entry - startAt hide)]).
  { unfold compose, backgrounds, startAt. rewrite Hact. reflexivity. }
  split; [exact Hc|]. rewrite Hc. split.
  - intros Hle l c Hin. destruct (hide && _); simpl in Hin; [tauto|].
    destruct Hin as [<-|[]]. unfold covers. simpl. lia.
  - intros Hlt. unfold specAbsentLayers, startAt in *.
    destruct hide; simpl andb; layers_cases; try reflexivity; lia.
Qed.

Lemma compose_absent_witness :
  active (mkIndentEntry 3 None) = None
  /\ compose (mkIndentEntry 3 None) true = [mkLayer Normal 1 2].
Proof.
  split; [reflexivity|].
  exact (proj1 (compose_absent (mkIndentEntry 3 None) true eq_refl)).
Defined.

(** C3 (as stated) fails: at [level = 0] without [hideFirstIndent] the
    composer emits one layer of zero columns, where the claim has an empty
    layer list; the style string is one gradient, not the empty string. *)
Lemma compose_absent_level_zero :
  active (mkIndentEntry 0 None) = None
  /\ level (mkIndentEntry 0 None) - startAt false <= 0
  /\ compose (mkIndentEntry 0 None) false = [mkLayer Normal 0 0]
  /\ compose (mkIndentEntry 0 None) false
     <> specAbsentLayers (startAt false) (level (mkIndentEntry 0 None))
  /\ compose (mkIndentEntry 0 None) false <> []
  /\ makeBackgroundCSS (mkIndentEntry 0 None) "12px" false 1
     = "repeating-linear-gradient(to right, var(--indent-marker-bg-color) 0 1px, transparent 1px 12px) calc(0 * 12px + .5ch)/calc(12px * 0 - 1px) no-repeat".
Proof.
  repeat split; try reflexivity; try discriminate; simpl; lia.
Qed.

(** C4: the composer returns the empty pattern when [hideFirstIndent]
    holds and [level = 0], and in no other case: the style string is empty
    exactly then, the layer list is empty exactly then, and every other
    combination of [level], [active] and [hideFirstIndent] yields the one to
    three gradients pushed by the layer algorithm, joined by commas. *)
Theorem makeBackgroundCSS_empty_iff entry indentWidth hide thickness :
  (makeBackgroundCSS entry indentWidth hide thickness = EmptyString
   <-> hide = true /\ level entry = 0)
  /\ (compose entry hide = [] <-> hide = true /\ level entry = 0)
  /\ (hide && (level entry =? 0) = false
      <-> (compose entry hide = backgrounds mkLayer entry hide
           /\ (1 <= List.length (compose entry hide) <= 3)%nat
           /\ makeBackgroundCSS entry indentWidth hide thickness
              = join ","
                  (map (layerGradient thickness indentWidth)
                     (backgrounds mkLayer entry hide)))).
Proof.
  split; [apply makeBackgroundCSS_nil_iff|].
  split; [apply compose_nil_iff|].
  pose proof (backgrounds_length mkLayer entry hide) as Hlen.
  pose proof (makeBackgroundCSS_compose entry indentWidth hide thickness) as Hs.
  unfold compose in *.
  destruct (hide && (level entry =? 0)).
  - split; [discriminate|]. intros [_ [Hl _]]. simpl in Hl. lia.
  - split; [|reflexivity]. intros _. repeat split; try lia. exact Hs.
Qed.

(** C10: for a descriptor whose active marker is present, with
    [1 <= active <= level], the composer emits the active layer at column
    [active - 1], and it is the only layer drawn with the active colour;
    the layer list and the style string are never empty.  In particular,
    with [hideFirstIndent] and [active = 1] the active layer is emitted at
    column [0], a column no normal layer draws then. *)
Theorem compose_active_layer_always entry indentWidth hide thickness a :
  active entry = Some a ->
  1 <= a <= level entry ->
  In (mkLayer Active (a - 1) 1) (compose entry hide)
  /\ activeCount (compose entry hide) = 1%nat
  /\ compose entry hide <> []
  /\ makeBackgroundCSS entry indentWidth hide thickness <> EmptyString
  /\ (hide = true -> a = 1 ->
      In (mkLayer Active 0 1) (compose entry hide)
      /\ forall l, In l (compose entry hide) ->
                   colorRole l = Normal -> ~ covers l 0).
Proof.
  intros Hact Hr.
  pose proof (makeBackgroundCSS_nil_iff entry indentWidth hide thickness) as Hs.
  pose proof (compose_nil_iff entry hide) as Hc.
  assert (Hin : In (mkLayer Active (a - 1) 1) (compose entry hide)).
  { rewrite (compose_active entry hide Hact Hr). unfold specActiveLayers.
    apply in_or_app. right. left. reflexivity. }
  split; [exact Hin|]. split; [|split; [|split]].
  - rewrite (compose_active entry hide Hact Hr). unfold specActiveLayers.
    destruct (0 <? _), (a <? _); reflexivity.
  - rewrite Hc. lia.
  - rewrite Hs. lia.
  - intros -> ->. split; [exact Hin|].
    rewrite (compose_active entry true Hact Hr).
    unfold specActiveLayers, startAt. simpl.
    intros l Hl Hn. unfold covers.
    destruct (1 <? level entry); simpl in Hl;
      repeat (destruct Hl as [<-|Hl]); try discriminate Hn; try tauto;
      simpl; lia.
Qed.

Lemma compose_active_layer_always_witness :
  active (mkIndentEntry 2 (Some 1)) = Some 1
  /\ 1 <= 1 <= level (mkIndentEntry 2 (Some 1))
  /\ In (mkLayer Active 0 1) (compose (mkIndentEntry 2 (Some 1)) true)
  /\ activeCount (compose (mkIndentEntry 2 (Some 1)) true) = 1%nat.
Proof.
  assert (Hr : 1 <= 1 <= level (mkIndentEntry 2 (Some 1))) by (simpl; lia).
  split; [reflexivity|]. split; [exact Hr|].
  pose proof (compose_active_layer_always (mkIndentEntry 2 (Some 1))
                "12px" true 1 eq_refl Hr) as [_ [Hcount [_ [_ Hout]]]].
  split; [exact (proj1 (Hout eq_refl eq_refl)) | exact Hcount].
Defined.

(* ================================================================= *)
(** * Facts about the gradient of a layer *)

Lemma append_assoc (s1 s2 s3 : string) : (s1 ++ s2) ++ s3 = s1 ++ (s2 ++ s3).
Proof. induction s1 as [|ch s1 IH]; simpl; [reflexivity | now rewrite IH]. Qed.

(** The string of [createGradient] is the image, the position and the size
    read as [calc()] terms. *)
Lemma createGradient_terms p thickness width startOffset columns :
  createGradient p thickness (numberToString width ++ "px") startOffset columns
  = gradientImage p thickness width
    ++ " calc(" ++ printCalc (gradientPosition width startOffset)
    ++ ")/calc(" ++ printCalc (gradientSize width columns) ++ ") no-repeat".
Proof.
  unfold createGradient, gradientImage, gradientPosition, gradientSize.
  cbn [printCalc]. repeat rewrite append_assoc. reflexivity.
Qed.

Lemma stripeLeft_value ch width startOffset j :
  (stripeLeft ch width startOffset j
   == inject_Z ((startOffset + j) * width) + (1 # 2) * ch)%Q.
Proof.
  unfold stripeLeft, gradientPosition. cbn [evalCalc].
  rewrite inject_Z_mult, inject_Z_plus. ring.
Qed.

(** C8 (as amended): the gradient of a layer is a stripe of the marker
    colour from [0] to [thickness] pixels followed by transparent fill up to
    the indent-unit pixel width, repeated at that period and drawn once
    ([no-repeat]); it is anchored so that the stripe of column [k] sits at
    [k] times the indent-unit pixel width plus half a character width
    ([.5ch]) from the left edge of the line box, and the width of the
    covered span is the indent-unit pixel width times the number of
    columns, less exactly one pixel ([1px]). *)
Theorem gradient_geometry entry hide thickness width ch :
  Forall
    (fun l =>
       layerGradient thickness (numberToString width ++ "px") l
       = "repeating-linear-gradient(to right, var("
         ++ markerCssProperty (colorRole l) ++ ") 0 "
         ++ numberToString thickness ++ "px, transparent "
         ++ numberToString thickness ++ "px "
         ++ numberToString width ++ "px)"
         ++ " calc(" ++ printCalc (gradientPosition width (columnStart l))
         ++ ")/calc(" ++ printCalc (gradientSize width (columnCount l))
         ++ ") no-repeat"
       /\ (forall j,
            stripeLeft ch width (columnStart l) j
            == inject_Z ((columnStart l + j) * width) + (1 # 2) * ch)%Q
       /\ (coveredWidth ch width (columnCount l)
           == inject_Z (width * columnCount l) - 1)%Q)
    (compose entry hide).
Proof.
  apply Forall_forall. intros l _. split; [|split].
  - unfold layerGradient. rewrite createGradient_terms.
    unfold gradientImage. cbn [printCalc].
    repeat rewrite append_assoc. reflexivity.
  - intros j. apply stripeLeft_value.
  - unfold coveredWidth, gradientSize. cbn [evalCalc].
    rewrite inject_Z_mult. reflexivity.
Qed.

(** C8 (as stated) fails: with an indent unit of 12 pixels and characters 8
    pixels wide, the first stripe of the single layer of a line of level
    [1] sits 4 pixels from the left edge, not at [0 * 12 = 0]; its style
    string carries the [.5ch] offset. *)
Lemma stripe_not_at_column_multiple :
  compose (mkIndentEntry 1 None) false = [mkLayer Normal 0 1]
  /\ makeBackgroundCSS (mkIndentEntry 1 None) "12px" false 1
     = "repeating-linear-gradient(to right, var(--indent-marker-bg-color) 0 1px, transparent 1px 12px) calc(0 * 12px + .5ch)/calc(12px * 1 - 1px) no-repeat"
  /\ (stripeLeft 8 12 0 0 == 4)%Q
  /\ ~ (stripeLeft 8 12 0 0 == inject_Z ((0 + 0) * 12))%Q.
Proof.
  split; [reflexivity|]. split; [reflexivity|].
  split; [reflexivity|]. discriminate.
Qed.

(* ================================================================= *)
(** * Facts about the plugin *)

Section PluginFacts.

Variable host : Host.

Implicit Types (w : World (EditorState host)) (request : MeasureRequest).

(** One turn of the loop: the line's decoration joins the builder, its
    width the console and its two positions the layout queries; the plugin
    and the view are as before. *)
Lemma readLine_run ius request builder line w :
  readLine host ius request builder line w
  = ((builder ++ lineRange (layout (view w)) ius request line)%list,
     mkWorld (plugin w) (view w)
       (console w ++ lineConsole (layout (view w)) ius request line)%list
       (layoutQueries w ++ lineQueries ius request line)%list).
Proof.
  unfold readLine, lineRange, lineConsole, lineQueries, calibrated.
  destruct w as [p v c q]. cbn [plugin view console layoutQueries].
  destruct (reqMap request (number line)) as [entry|].
  2: { unfold ret. now rewrite !app_nil_r. }
  destruct (level entry =? 0); cbn [negb andb].
  { unfold ret. now rewrite !app_nil_r. }
  destruct (String.prefix ius (text line)); cbn [negb].
  2: { unfold ret. now rewrite !app_nil_r. }
  unfold bind, coordsAtPos, consoleLog, modify, ret, addBackground, lineWidth,
    afterUnitPos.
  cbn [plugin view console layoutQueries app].
  rewrite <- app_assoc. reflexivity.
Qed.

Lemma readLines_run ius request lines : forall builder w,
  readLines host ius request builder lines w
  = ((builder
      ++ flat_map (lineRange (layout (view w)) ius request) lines)%list,
     mkWorld (plugin w) (view w)
       (console w
        ++ flat_map (lineConsole (layout (view w)) ius request) lines)%list
       (layoutQueries w ++ flat_map (lineQueries ius request) lines)%list).
Proof.
  induction lines as [|line rest IH]; intros builder w.
  - destruct w. unfold readLines, ret. cbn. now rewrite !app_nil_r.
  - cbn [readLines]. unfold bind. rewrite readLine_run, IH.
    cbn [plugin view console layoutQueries flat_map].
    now rewrite <- !app_assoc.
Qed.

(** The measure phase as a whole. *)
Lemma read_run request w :
  let ius := indentUnit host (viewState (view w)) in
  read host request w
  = (mkRequest
       (reqBuilder request
        ++ flat_map (lineRange (layout (view w)) ius request)
             (reqLines request))%list
       (reqLines request) (reqMap request) (reqHideFirstIndent request)
       (reqThickness request),
     mkWorld (plugin w) (view w)
       (console w
        ++ flat_map (lineConsole (layout (view w)) ius request)
             (reqLines request))%list
       (layoutQueries w
        ++ flat_map (lineQueries ius request) (reqLines request))%list).
Proof.
  unfold read, bind, gets, ret. rewrite readLines_run. reflexivity.
Qed.

(** The commit phase as a whole. *)
Lemma write_run request w :
  write host request w
  = (tt,
     mkWorld
       (mkPlugin (finish (reqBuilder request)) (unitWidth (plugin w))
          (currentLineNumber (plugin w)))
       (mkView (viewState (view w)) (layout (view w)) true
          (measureRequests (view w)))
       (console w) (layoutQueries w)).
Proof. reflexivity. Qed.

Lemma generate_run state w :
  generate host state w
  = (tt,
     mkWorld (plugin w)
       (mkView (viewState (view w)) (layout (view w)) (hasFocus (view w))
          (measureRequests (view w) ++ [generated host state w])%list)
       (console w) (layoutQueries w)).
Proof. reflexivity. Qed.

(** [update] stores the two scalars and then either calls [generate] or
    does nothing more. *)
Lemma update_run u w :
  update host u w
  = if docChanged u || viewportChanged u
       || negb (getIndentUnit host (updateState u) =? unitWidth (plugin w))
       || (highlightActiveBlock (indentationMarkerConfig host (updateState u))
           && negb (number (getCurrentLine host (updateState u))
                    =? currentLineNumber (plugin w)))
    then generate host (updateState u) (remembered host u w)
    else (tt, remembered host u w).
Proof.
  unfold update, bind, gets, modify, ret, remembered, setPlugin.
  destruct w as [[d uw cl] v c q]. cbn [plugin view console layoutQueries
    decorations unitWidth currentLineNumber].
  destruct (Z.eqb_spec (getIndentUnit host (updateState u)) uw) as [->|Hne];
    cbn [negb plugin view console layoutQueries decorations unitWidth
         currentLineNumber];
    destruct (_ || _); reflexivity.
Qed.

Lemma trigger_reflect u w :
  trigger host u w
  <-> docChanged u || viewportChanged u
      || negb (getIndentUnit host (updateState u) =? unitWidth (plugin w))
      || (highlightActiveBlock (indentationMarkerConfig host (updateState u))
          && negb (number (getCurrentLine host (updateState u))
                   =? currentLineNumber (plugin w))) = true.
Proof.
  unfold trigger.
  rewrite !orb_true_iff, andb_true_iff, !negb_true_iff, !Z.eqb_neq. tauto.
Qed.

(** Every decoration left by the measure phase belongs to a calibrated
    line. *)
Lemma lineRange_origin lay ius request line r :
  In r (lineRange lay ius request line) ->
  rangeFrom r = from line /\ calibrated ius request line = true.
Proof.
  unfold lineRange. destruct (reqMap request (number line)); [|intros []].
  destruct (calibrated ius request line); [|intros []].
  unfold addBackground. cbn. intros [<-|[]]. now split.
Qed.

Lemma calibrated_prefix ius request line :
  calibrated ius request line = true -> String.prefix ius (text line) = true.
Proof.
  unfold calibrated. destruct (reqMap request (number line)); [|discriminate].
  intros H. apply andb_true_iff in H. tauto.
Qed.

Lemma measure_decorations request w :
  decorations (plugin (snd (measure host request w)))
  = (reqBuilder request
     ++ flat_map
          (lineRange (layout (view w)) (indentUnit host (viewState (view w)))
             request)
          (reqLines request))%list.
Proof.
  unfold measure, bind. pose proof (read_run request w) as Hr.
  cbv zeta in Hr. rewrite Hr. reflexivity.
Qed.

(** C5: on every update the scheduler calls [generate] if and only if the
    document changed, or the viewport changed, or the indent-unit width
    differs from the remembered one, or active-block highlighting is
    enabled and the cursor line number differs from the remembered one.
    [generate] then queues one measure request for the new state; when none
    of the four holds, [update] only stores the two scalars.  In both cases
    [update] itself leaves the decoration set as it was. *)
Theorem update_generates_iff u w :
  (trigger host u w
   <-> measureRequests (view (snd (update host u w)))
       = (measureRequests (view w)
          ++ [generated host (updateState u) (remembered host u w)])%list)
  /\ (trigger host u w
      <-> snd (update host u w)
          = snd (generate host (updateState u) (remembered host u w)))
  /\ (~ trigger host u w <-> snd (update host u w) = remembered host u w)
  /\ decorations (plugin (snd (update host u w))) = decorations (plugin w).
Proof.
  rewrite (trigger_reflect u w), update_run.
  assert (Hgrow : forall (l : list MeasureRequest) x, l <> (l ++ [x])%list).
  { intros l x He. apply (f_equal (@List.length _)) in He.
    rewrite length_app in He. simpl in He. lia. }
  destruct (_ || _); rewrite ?generate_run; cbn [snd view measureRequests
    plugin decorations remembered].
  - repeat split; auto; try discriminate.
    + intros Hn. exfalso. now apply Hn.
    + intros He. exfalso.
      apply (f_equal (fun x => measureRequests (view x))) in He.
      cbn in He. symmetry in He. revert He. apply Hgrow.
  - repeat split; auto; try discriminate.
    + intros He. exfalso. revert He. apply Hgrow.
    + intros He. exfalso.
      apply (f_equal (fun x => measureRequests (view x))) in He.
      cbn in He. revert He. apply Hgrow.
Qed.

(** C6: a visible line whose text does not start with the indent-unit
    string of the view is passed over by the measure phase: its turn of the
    loop leaves the builder and the world as they are (no coordinate is
    queried, no width computed); every decoration of the committed set
    stems from a line that does start with the indent unit; and, the visible
    lines starting at distinct positions, the committed set holds no
    decoration at the line's position.  The cycle runs to its end. *)
Theorem unprefixed_line_not_decorated request w line :
  reqBuilder request = [] ->
  In line (reqLines request) ->
  String.prefix (indentUnit host (viewState (view w))) (text line) = false ->
  (forall builder w0,
     readLine host (indentUnit host (viewState (view w))) request builder
       line w0 = (builder, w0))
  /\ (forall r,
        In r (decorations (plugin (snd (measure host request w)))) ->
        exists l,
          In l (reqLines request) /\ rangeFrom r = from l
          /\ String.prefix (indentUnit host (viewState (view w))) (text l)
             = true)
  /\ (NoDup (map from (reqLines request)) ->
      ~ In (from line)
          (map rangeFrom
             (decorations (plugin (snd (measure host request w)))))).
Proof.
  intros Hb Hin Hpre.
  assert (Horigin : forall r,
    In r (decorations (plugin (snd (measure host request w)))) ->
    exists l, In l (reqLines request) /\ rangeFrom r = from l
      /\ String.prefix (indentUnit host (viewState (view w))) (text l) = true).
  { intros r. rewrite measure_decorations, Hb. cbn [app].
    rewrite in_flat_map. intros [l [Hl Hr]].
    apply lineRange_origin in Hr. destruct Hr as [Hf Hc].
    exists l. repeat split; auto. eapply calibrated_prefix; eauto. }
  split; [|split; [exact Horigin|]].
  - intros builder w0. rewrite readLine_run.
    assert (Hc : calibrated (indentUnit host (viewState (view w))) request line
                 = false).
    { unfold calibrated. destruct (reqMap request (number line)); auto.
      rewrite Hpre. apply andb_false_r. }
    unfold lineRange, lineConsole, lineQueries. rewrite Hc.
    destruct (reqMap request (number line)); destruct w0;
      cbn; now rewrite !app_nil_r.
  - intros Hnd Hf. apply in_map_iff in Hf. destruct Hf as [r [Hr Hir]].
    destruct (Horigin r Hir) as [l [Hl [Hrl Hp]]].
    assert (l = line).
    { clear - Hnd Hl Hin Hr Hrl. rewrite Hrl in Hr.
      induction (reqLines request) as [|x xs IH]; [destruct Hin|].
      cbn in Hnd. inversion Hnd as [|? ? Hnotin Hnd']; subst.
      destruct Hl as [->|Hl], Hin as [->|Hin]; auto.
      - exfalso. apply Hnotin. rewrite Hr. now apply in_map.
      - exfalso. apply Hnotin. rewrite <- Hr. now apply in_map. }
    subst l. congruence.
Qed.

(** C7 (as amended): when the layout resolves neither the start of a
    calibrated line nor the position after its indent unit, the measured
    width of the line is [0]: the line is decorated with an indent width of
    [0px].  The loop goes on: the lines before and after it are decorated
    as they would be without it. *)
Theorem unresolved_coordinates_width_zero ius request w line entry builder
    before after :
  reqMap request (number line) = Some entry ->
  level entry <> 0 ->
  String.prefix ius (text line) = true ->
  layout (view w) (from line) = None ->
  layout (view w) (afterUnitPos ius line) = None ->
  lineWidth (layout (view w)) ius line = 0
  /\ readLine host ius request builder line w
     = (addBackground builder line
          (makeBackgroundCSS entry "0px" (reqHideFirstIndent request)
             (reqThickness request)),
        mkWorld (plugin w) (view w) (console w ++ [("width", 0)])%list
          (layoutQueries w ++ [afterUnitPos ius line; from line])%list)
  /\ fst (readLines host ius request builder (before ++ line :: after) w)
     = (builder
        ++ flat_map (lineRange (layout (view w)) ius request) before
        ++ addBackground [] line
             (makeBackgroundCSS entry "0px" (reqHideFirstIndent request)
                (reqThickness request))
        ++ flat_map (lineRange (layout (view w)) ius request) after)%list.
Proof.
  intros Hm Hl Hp Hs Ha.
  assert (Hw : lineWidth (layout (view w)) ius line = 0).
  { unfold lineWidth. rewrite Hs, Ha. reflexivity. }
  assert (Hc : calibrated ius request line = true).
  { unfold calibrated. rewrite Hm, Hp.
    apply Z.eqb_neq in Hl. now rewrite Hl. }
  assert (Hr : lineRange (layout (view w)) ius request line
               = addBackground [] line
                   (makeBackgroundCSS entry "0px" (reqHideFirstIndent request)
                      (reqThickness request))).
  { unfold lineRange. rewrite Hm, Hc, Hw. reflexivity. }
  split; [exact Hw|]. split.
  - rewrite readLine_run, Hr. unfold lineConsole, lineQueries.
    rewrite Hc, Hw. reflexivity.
  - rewrite readLines_run. cbn [fst]. rewrite flat_map_app.
    cbn [flat_map]. rewrite Hr. reflexivity.
Qed.

(** C9 (as amended): a regeneration queues one request of two phases.  The
    measure phase changes neither the plugin (so not the decoration set)
    nor the view: it only queries the layout and logs the widths.  The
    commit phase makes no layout query; it replaces the decoration set by
    the finished builder and then focuses the view, and changes nothing
    else: the two remembered scalars, the editor state, the layout, the
    request queue and the console are as before. *)
Theorem measure_then_commit state request w :
  (measureRequests (view (snd (generate host state w)))
   = (measureRequests (view w) ++ [generated host state w])%list
   /\ plugin (snd (generate host state w)) = plugin w)
  /\ (plugin (snd (read host request w)) = plugin w
      /\ view (snd (read host request w)) = view w
      /\ layoutQueries (snd (read host request w))
         = (layoutQueries w
            ++ flat_map
                 (lineQueries (indentUnit host (viewState (view w))) request)
                 (reqLines request))%list)
  /\ (layoutQueries (snd (write host request w)) = layoutQueries w
      /\ console (snd (write host request w)) = console w
      /\ plugin (snd (write host request w))
         = mkPlugin (finish (reqBuilder request)) (unitWidth (plugin w))
             (currentLineNumber (plugin w))
      /\ view (snd (write host request w))
         = mkView (viewState (view w)) (layout (view w)) true
             (measureRequests (view w))).
Proof.
  pose proof (read_run request w) as Hr. cbv zeta in Hr.
  rewrite generate_run, Hr, write_run. cbn [snd plugin view layoutQueries
    console measureRequests]. repeat split.
Qed.

End PluginFacts.

(* ================================================================= *)
(** * The example host at work *)

Lemma unprefixed_line_not_decorated_witness :
  reqBuilder exampleRequest = []
  /\ In lineTab (reqLines exampleRequest)
  /\ String.prefix
       (indentUnit exampleHost (viewState (view (exampleWorld exampleLayout))))
       (text lineTab) = false
  /\ NoDup (map from (reqLines exampleRequest))
  /\ ~ In (from lineTab)
         (map rangeFrom
            (decorations
               (plugin
                  (snd (measure exampleHost exampleRequest
                          (exampleWorld exampleLayout)))))).
Proof.
  assert (Hin : In lineTab (reqLines exampleRequest))
    by (simpl; auto).
  assert (Hnd : NoDup (map from (reqLines exampleRequest))).
  { simpl. repeat constructor; simpl; intuition discriminate. }
  split; [reflexivity|]. split; [exact Hin|]. split; [reflexivity|].
  split; [exact Hnd|].
  exact (proj2 (proj2 (unprefixed_line_not_decorated exampleHost
                         exampleRequest (exampleWorld exampleLayout) lineTab
                         eq_refl Hin eq_refl)) Hnd).
Defined.

Lemma unresolved_coordinates_width_zero_witness :
  reqMap exampleRequest (number lineSpaces) = Some (mkIndentEntry 1 None)
  /\ level (mkIndentEntry 1 None) <> 0
  /\ String.prefix "  " (text lineSpaces) = true
  /\ layout (view (exampleWorld noLayout)) (from lineSpaces) = None
  /\ layout (view (exampleWorld noLayout)) (afterUnitPos "  " lineSpaces) = None
  /\ lineWidth (layout (view (exampleWorld noLayout))) "  " lineSpaces = 0.
Proof.
  assert (Hl : level (mkIndentEntry 1 None) <> 0) by (simpl; lia).
  repeat (split; [first [reflexivity | exact Hl]|]).
  exact (proj1 (unresolved_coordinates_width_zero exampleHost "  "
                  exampleRequest (exampleWorld noLayout) lineSpaces []
                  [] [lineTab; lineTop] eq_refl Hl eq_refl eq_refl eq_refl)).
Defined.

(** C7 (as stated) fails: when only one of the two coordinates of a line is
    unresolved, the measured width is not [0].  With the start of the line
    unresolved and the position after the indent unit at 22 pixels the width
    is [22]; with the start at 6 pixels and the position after the indent
    unit unresolved it is [-6]. *)
Lemma width_with_one_coordinate_unresolved :
  calibrated "  " exampleRequest lineSpaces = true
  /\ layoutAfterUnitOnly (from lineSpaces) = None
  /\ console
       (snd (readLine exampleHost "  " exampleRequest [] lineSpaces
               (exampleWorld layoutAfterUnitOnly)))
     = [("width", 22)]
  /\ lineWidth layoutAfterUnitOnly "  " lineSpaces <> 0
  /\ layoutLineStartOnly (afterUnitPos "  " lineSpaces) = None
  /\ console
       (snd (readLine exampleHost "  " exampleRequest [] lineSpaces
               (exampleWorld layoutLineStartOnly)))
     = [("width", -6)]
  /\ lineWidth layoutLineStartOnly "  " lineSpaces <> 0.
Proof.
  repeat split; try reflexivity; vm_compute; discriminate.
Qed.

(** C9 (as stated) fails: the commit phase changes the view besides the
    decoration set, for it gives the editor the focus. *)
Lemma commit_focuses_view :
  hasFocus (view (exampleWorld exampleLayout)) = false
  /\ hasFocus
       (view (snd (write exampleHost exampleRequest
                     (exampleWorld exampleLayout))))
     = true
  /\ view (snd (write exampleHost exampleRequest (exampleWorld exampleLayout)))
     <> view (exampleWorld exampleLayout).
Proof.
  split; [reflexivity|]. split; [reflexivity|].
  intros He. apply (f_equal (@hasFocus _)) in He. discriminate He.
Qed.

(** The cycle of the example: the line indented by two spaces is decorated
    with the measured width of 16 pixels, the line indented by a tab and
    the line of level [0] are not. *)
Example measure_example :
  decorations
    (plugin (snd (measure exampleHost exampleRequest
                    (exampleWorld exampleLayout))))
  = [mkRange 0 0
       (mkDecoration "cm-indent-markers"
          "--indent-markers: repeating-linear-gradient(to right, var(--indent-marker-bg-color) 0 1px, transparent 1px 16px) calc(0 * 16px + .5ch)/calc(16px * 1 - 1px) no-repeat")].
Proof. reflexivity. Qed.

(* ================================================================= *)
(** * Further facts about the composer *)

Ltac compare_cases :=
  repeat match goal with
         | |- context [?a <=? ?b] => destruct (Z.leb_spec a b)
         | |- context [?a <? ?b] => destruct (Z.ltb_spec a b)
         | |- context [?a =? ?b] => destruct (Z.eqb_spec a b)
         end.

(** X1: active precedence.  For a descriptor with [level >= 0] and [active]
    absent or in [[1, level]], the colour of every column is known: column
    [active - 1] has the active colour, also when [hideFirstIndent] would
    hide it; every other column of [[startAt, level)] has the normal
    colour; no other column is drawn. *)
Theorem roleAt_compose entry hide c :
  wellFormed entry ->
  roleAt (compose entry hide) c
  = match active entry with
    | Some a =>
        if c =? a - 1 then Some Active
        else if (startAt hide <=? c) && (c <? level entry) then Some Normal
        else None
    | None =>
        if (startAt hide <=? c) && (c <? level entry) then Some Normal
        else None
    end.
Proof.
  intros [Hl Ha].
  destruct (active entry) as [a|] eqn:Hact.
  - rewrite (compose_active entry hide Hact Ha).
    unfold specActiveLayers, startAt.
    destruct hide; layers_cases; cbn [app roleAt]; unfold coversb;
      cbn [columnStart columnCount colorRole];
      compare_cases; cbn [andb]; try reflexivity; lia.
  - unfold compose, backgrounds, startAt. rewrite Hact.
    destruct hide; simpl andb; layers_cases; cbn [roleAt]; unfold coversb;
      cbn [columnStart columnCount colorRole];
      compare_cases; cbn [andb]; try reflexivity; lia.
Qed.

Lemma roleAt_compose_witness :
  wellFormed (mkIndentEntry 4 (Some 3))
  /\ roleAt (compose (mkIndentEntry 4 (Some 3)) false) 2 = Some Active
  /\ roleAt (compose (mkIndentEntry 4 (Some 3)) false) 3 = Some Normal.
Proof.
  assert (H : wellFormed (mkIndentEntry 4 (Some 3)))
    by (unfold wellFormed; simpl; lia).
  split; [exact H|]. split.
  - exact (roleAt_compose (entry := mkIndentEntry 4 (Some 3)) false 2 H).
  - exact (roleAt_compose (entry := mkIndentEntry 4 (Some 3)) false 3 H).
Defined.

(** X2: [hideFirstIndent] changes the first column only.  Every column
    other than [0] has the same colour with and without it; column [0],
    normal or active without it, is with it drawn exactly when the active
    marker is the outermost one. *)
Theorem hideFirstIndent_first_column_only entry c :
  wellFormed entry ->
  (c <> 0 -> roleAt (compose entry true) c = roleAt (compose entry false) c)
  /\ roleAt (compose entry true) 0
     = match active entry with
       | Some a => if a =? 1 then Some Active else None
       | None => None
       end
  /\ roleAt (compose entry false) 0
     = match active entry with
       | Some a => if a =? 1 then Some Active
                   else Some Normal
       | None => if 0 <? level entry then Some Normal else None
       end.
Proof.
  intros Hw. rewrite !roleAt_compose by exact Hw.
  destruct Hw as [Hl Ha]. unfold startAt.
  destruct (active entry) as [a|]; repeat split; try intros Hc;
    compare_cases; cbn [andb]; try reflexivity; lia.
Qed.

Lemma hideFirstIndent_first_column_only_witness :
  wellFormed (mkIndentEntry 3 None)
  /\ roleAt (compose (mkIndentEntry 3 None) true) 0 = None
  /\ roleAt (compose (mkIndentEntry 3 None) false) 0 = Some Normal.
Proof.
  assert (H : wellFormed (mkIndentEntry 3 None))
    by (unfold wellFormed; simpl; lia).
  split; [exact H|].
  exact (proj2 (hideFirstIndent_first_column_only
                  (entry := mkIndentEntry 3 None) 0 H)).
Defined.

(** X3: no layer has a negative column count, and with an active marker
    every layer has at least one column; a layer of no column is emitted
    only without an active marker, when [level = startAt]. *)
Theorem compose_counts entry hide :
  wellFormed entry ->
  Forall
    (fun l =>
       0 < columnCount l
       \/ (columnCount l = 0 /\ active entry = None
           /\ level entry = startAt hide))
    (compose entry hide).
Proof.
  intros [Hl Ha].
  destruct (active entry) as [a|] eqn:Hact.
  - rewrite (compose_active entry hide Hact Ha).
    unfold specActiveLayers, startAt.
    destruct hide; layers_cases; cbn [app];
      repeat first [apply Forall_nil | apply Forall_cons];
      cbn [columnCount]; left; lia.
  - unfold compose, backgrounds, startAt. rewrite Hact.
    destruct hide; simpl andb; layers_cases;
      repeat first [apply Forall_nil | apply Forall_cons];
      cbn [columnCount].
    + destruct (Z.eq_dec (level entry) 1);
        [right; repeat split; lia | left; lia].
    + destruct (Z.eq_dec (level entry) 0);
        [right; repeat split; lia | left; lia].
Qed.

Lemma compose_counts_witness :
  wellFormed (mkIndentEntry 1 None)
  /\ Forall
       (fun l =>
          0 < columnCount l
          \/ (columnCount l = 0 /\ active (mkIndentEntry 1 None) = None
              /\ level (mkIndentEntry 1 None) = startAt true))
       (compose (mkIndentEntry 1 None) true).
Proof.
  assert (H : wellFormed (mkIndentEntry 1 None))
    by (unfold wellFormed; simpl; lia).
  split; [exact H|].
  exact (compose_counts (entry := mkIndentEntry 1 None) true H).
Defined.

(** X4: a gradient shows one stripe per column.  For an indent unit at
    least two pixels wide, the [j]-th stripe of a gradient of [columns]
    columns starts inside the covered span exactly when [0 <= j < columns]:
    the pixel taken off the width cuts the stripe that would begin at the
    right edge, and no other. *)
Theorem stripes_per_gradient ch width columns j :
  2 <= width ->
  stripeDrawn ch width columns j <-> 0 <= j < columns.
Proof.
  intros Hw. unfold stripeDrawn, coveredWidth, gradientSize.
  cbn [evalCalc].
  assert (He : (inject_Z width * inject_Z columns - inject_Z 1
                == inject_Z (width * columns - 1))%Q).
  { unfold Z.sub. rewrite inject_Z_plus, inject_Z_mult, inject_Z_opp.
    reflexivity. }
  rewrite He, <- inject_Z_mult, <- Zlt_Qlt. nia.
Qed.

Lemma stripes_per_gradient_witness :
  2 <= 12 /\ stripeDrawn 8 12 3 2 /\ ~ stripeDrawn 8 12 3 3.
Proof.
  assert (H : 2 <= 12) by lia.
  split; [exact H|]. split.
  - apply (proj2 (stripes_per_gradient 8 3 2 H)). lia.
  - intros Hd. apply (proj1 (stripes_per_gradient 8 3 3 H)) in Hd. lia.
Defined.

(* ================================================================= *)
(** * Further facts about the plugin *)

Lemma prefix_length (s1 s2 : string) :
  String.prefix s1 s2 = true -> (String.length s1 <= String.length s2)%nat.
Proof.
  revert s2. induction s1 as [|a s1 IH]; intros s2 H; simpl; [lia|].
  destruct s2 as [|b s2]; simpl in H; [discriminate|].
  destruct (Ascii.ascii_dec a b); [|discriminate].
  apply IH in H. simpl. lia.
Qed.

Lemma lineRange_froms lay ius request lines :
  map rangeFrom (flat_map (lineRange lay ius request) lines)
  = map from (filter (calibrated ius request) lines).
Proof.
  induction lines as [|l rest IH]; [reflexivity|].
  cbn [flat_map filter]. rewrite map_app, IH.
  unfold lineRange.
  destruct (calibrated ius request l) eqn:Hc;
    destruct (reqMap request (number l)) as [entry|] eqn:Hm;
    try reflexivity.
  unfold calibrated in Hc. rewrite Hm in Hc. discriminate.
Qed.

Lemma sorted_map_filter {A : Type} (f : A -> Z) (p : A -> bool) (l : list A) :
  StronglySorted Z.lt (map f l) ->
  StronglySorted Z.lt (map f (filter p l)).
Proof.
  induction l as [|x xs IH]; intros Hs; [constructor|].
  cbn [map] in Hs. inversion Hs as [|? ? Hs' Hall]; subst.
  cbn [filter]. destruct (p x); [|auto].
  cbn [map]. constructor; [auto|].
  rewrite Forall_forall in *. intros y Hy. apply Hall.
  apply in_map_iff in Hy. destruct Hy as [z [<- Hz]].
  apply filter_In in Hz. apply in_map. tauto.
Qed.

Section PluginMore.

Variable host : Host.

Implicit Types (w : World (EditorState host)) (request : MeasureRequest).

(** X5: a visible line without an entry in the indentation map, or with an
    entry of level [0], is passed over by the measure phase: its turn of
    the loop leaves the builder and the world as they are, whatever its
    text; and every decoration of the committed set stems from a line whose
    entry has a non-zero level. *)
Theorem unlevelled_line_not_decorated ius request line :
  (reqMap request (number line) = None
   \/ exists entry,
        reqMap request (number line) = Some entry /\ level entry = 0) ->
  (forall builder w0,
     readLine host ius request builder line w0 = (builder, w0))
  /\ (forall w r,
        reqBuilder request = [] ->
        In r (decorations (plugin (snd (measure host request w)))) ->
        exists l entry,
          In l (reqLines request) /\ rangeFrom r = from l
          /\ reqMap request (number l) = Some entry /\ level entry <> 0).
Proof.
  intros Hm. split.
  - intros builder w0. unfold readLine.
    destruct Hm as [Hm|[entry [Hm Hl]]]; rewrite Hm; [reflexivity|].
    rewrite Hl. reflexivity.
  - intros w r Hb. rewrite measure_decorations, Hb. cbn [app].
    rewrite in_flat_map. intros [l [Hl Hr]].
    apply lineRange_origin in Hr. destruct Hr as [Hf Hc].
    unfold calibrated in Hc.
    destruct (reqMap request (number l)) as [entry|] eqn:He; [|discriminate].
    exists l, entry. repeat split; auto.
    apply andb_true_iff in Hc. destruct Hc as [Hc _].
    apply negb_true_iff, Z.eqb_neq in Hc. exact Hc.
Qed.

(** X6: the committed set holds one decoration for each calibrated line
    (an entry of non-zero level, a text that starts with the indent unit),
    in the order of the visible lines, at the start of the line. *)
Theorem one_decoration_per_calibrated_line request w :
  reqBuilder request = [] ->
  map rangeFrom (decorations (plugin (snd (measure host request w))))
  = map from
      (filter (calibrated (indentUnit host (viewState (view w))) request)
         (reqLines request)).
Proof.
  intros Hb. rewrite measure_decorations, Hb. cbn [app].
  apply lineRange_froms.
Qed.

(** X7: when the visible lines come in increasing order of their start
    positions, the decorations are added to the builder in increasing order
    of position, none twice. *)
Theorem decorations_sorted request w :
  reqBuilder request = [] ->
  StronglySorted Z.lt (map from (reqLines request)) ->
  StronglySorted Z.lt
    (map rangeFrom (decorations (plugin (snd (measure host request w))))).
Proof.
  intros Hb Hs. rewrite measure_decorations, Hb. cbn [app].
  rewrite lineRange_froms. now apply sorted_map_filter.
Qed.

(** X8: every committed decoration is a line decoration of zero length, of
    class [cm-indent-markers], whose style sets [--indent-markers] to a
    non-empty list of gradients: the early return of [makeBackgroundCSS] is
    never taken for a line that [read] decorates. *)
Theorem decoration_shape request w r :
  reqBuilder request = [] ->
  In r (decorations (plugin (snd (measure host request w)))) ->
  rangeTo r = rangeFrom r
  /\ class (rangeValue r) = "cm-indent-markers"
  /\ exists css,
       style (rangeValue r) = "--indent-markers: " ++ css
       /\ css <> EmptyString.
Proof.
  intros Hb. rewrite measure_decorations, Hb. cbn [app].
  rewrite in_flat_map. intros [l [Hl Hr]].
  unfold lineRange in Hr.
  destruct (reqMap request (number l)) as [entry|] eqn:He; [|destruct Hr].
  destruct (calibrated _ request l) eqn:Hc; [|destruct Hr].
  unfold addBackground in Hr. cbn in Hr. destruct Hr as [<-|[]].
  cbn [rangeTo rangeFrom rangeValue class style].
  split; [reflexivity|]. split; [reflexivity|].
  eexists. split; [reflexivity|].
  intros Hnil. apply makeBackgroundCSS_nil_iff in Hnil.
  destruct Hnil as [_ Hz].
  unfold calibrated in Hc. rewrite He in Hc.
  apply andb_true_iff in Hc. destruct Hc as [Hc _].
  apply negb_true_iff, Z.eqb_neq in Hc. contradiction.
Qed.

(** X9: the measure phase makes exactly two layout queries for each
    calibrated line and none for any other; every queried position lies
    within its line, between the start of the line and the end of its
    text. *)
Theorem layout_queries_within_lines request w :
  exists queries,
    layoutQueries (snd (read host request w))
    = (layoutQueries w ++ queries)%list
    /\ List.length queries
       = (2 * List.length
                (filter
                   (calibrated (indentUnit host (viewState (view w))) request)
                   (reqLines request)))%nat
    /\ forall p, In p queries ->
         exists l,
           In l (reqLines request)
           /\ calibrated (indentUnit host (viewState (view w))) request l
              = true
           /\ from l <= p <= from l + Z.of_nat (String.length (text l)).
Proof.
  pose proof (read_run host request w) as Hr. cbv zeta in Hr.
  rewrite Hr. clear Hr. cbn [snd layoutQueries].
  set (ius := indentUnit host (viewState (view w))).
  exists (flat_map (lineQueries ius request) (reqLines request)).
  split; [reflexivity|]. split.
  - induction (reqLines request) as [|l rest IH]; [reflexivity|].
    cbn [flat_map filter]. rewrite length_app, IH. unfold lineQueries.
    destruct (calibrated ius request l); cbn [List.length]; lia.
  - intros p Hp. apply in_flat_map in Hp. destruct Hp as [l [Hl Hp]].
    unfold lineQueries in Hp.
    destruct (calibrated ius request l) eqn:Hc; [|destruct Hp].
    exists l. split; [exact Hl|]. split; [exact Hc|].
    pose proof (prefix_length _ _ (calibrated_prefix _ _ _ Hc)) as Hlen.
    unfold afterUnitPos in Hp. destruct Hp as [<-|[<-|[]]]; lia.
Qed.

(** X10: [update] makes no layout query and writes nothing to the console;
    it leaves the focus, the state and the layout of the view and the
    decoration set as they are, and adds at most one request at the end of
    the queue. *)
Theorem update_frame u w :
  layoutQueries (snd (update host u w)) = layoutQueries w
  /\ console (snd (update host u w)) = console w
  /\ hasFocus (view (snd (update host u w))) = hasFocus (view w)
  /\ viewState (view (snd (update host u w))) = viewState (view w)
  /\ layout (view (snd (update host u w))) = layout (view w)
  /\ decorations (plugin (snd (update host u w))) = decorations (plugin w)
  /\ exists added,
       measureRequests (view (snd (update host u w)))
       = (measureRequests (view w) ++ added)%list
       /\ (List.length added <= 1)%nat.
Proof.
  rewrite update_run.
  destruct (_ || _); rewrite ?generate_run;
    cbn [snd view plugin console layoutQueries remembered hasFocus viewState
         layout decorations measureRequests];
    repeat (split; [reflexivity|]).
  - eexists. split; [reflexivity|]. simpl. lia.
  - exists []. split; [now rewrite app_nil_r|]. simpl. lia.
Qed.

(** X11: the early exit.  Once an update has been handled, an update for
    the same state that reports neither a document nor a viewport change
    does nothing at all: the two scalars were stored by the first. *)
Theorem update_again_is_noop u w :
  update host (mkUpdate (updateState u) false false) (snd (update host u w))
  = (tt, snd (update host u w)).
Proof.
  rewrite (update_run host u w).
  destruct (_ || _); rewrite ?generate_run; cbn [snd];
    rewrite update_run;
    cbn [updateState docChanged viewportChanged plugin unitWidth
         currentLineNumber remembered orb];
    rewrite !Z.eqb_refl; cbn [negb andb orb];
    rewrite andb_false_r; reflexivity.
Qed.

(** X12: a regeneration replaces the decoration set.  Whatever the
    decoration set was, once the request queued by [generate] has been
    measured and committed the decoration set consists of the decorations
    of the visible lines of the new state, measured in the layout of the
    view, and of nothing else. *)
Theorem regeneration_replaces_decorations state w :
  decorations
    (plugin
       (snd (measure host (generated host state w)
               (snd (generate host state w)))))
  = flat_map
      (lineRange (layout (view w)) (indentUnit host (viewState (view w)))
         (generated host state w))
      (getVisibleLines host (view w) state).
Proof.
  rewrite measure_decorations, generate_run. reflexivity.
Qed.

(** X13: the constructor stores the two scalars of the view's state, starts
    from the empty decoration set and queues one request; an update for
    that state that reports no change then does nothing. *)
Theorem constructor_then_unchanged_update view0 :
  plugin (constructor host view0)
  = mkPlugin [] (getIndentUnit host (viewState view0))
      (number (getCurrentLine host (viewState view0)))
  /\ List.length (measureRequests (view (constructor host view0)))
     = S (List.length (measureRequests view0))
  /\ update host (mkUpdate (viewState view0) false false)
       (constructor host view0)
     = (tt, constructor host view0).
Proof.
  unfold constructor. rewrite generate_run. cbn [snd plugin view
    measureRequests]. split; [reflexivity|]. split.
  - rewrite length_app. simpl. lia.
  - rewrite update_run.
    cbn [updateState docChanged viewportChanged plugin unitWidth
         currentLineNumber remembered orb view console layoutQueries
         decorations].
    rewrite !Z.eqb_refl. cbn [negb andb orb]. rewrite andb_false_r.
    reflexivity.
Qed.

(** X16: [toggleIndent] forces a regeneration.  When the plugin remembers
    the indent-unit width of the current state, and the host measures the
    chosen unit (two or four spaces) by its length, the update that
    carries a state with the chosen unit makes [update] call [generate]:
    the chosen unit is never as wide as the current one. *)
Theorem toggleIndent_regenerates state u w :
  unitWidth (plugin w) = getIndentUnit host state ->
  indentUnit host (updateState u) = toggleIndent host state ->
  getIndentUnit host (updateState u)
  = Z.of_nat (String.length (indentUnit host (updateState u))) ->
  getIndentUnit host (updateState u) <> getIndentUnit host state
  /\ snd (update host u w)
     = snd (generate host (updateState u) (remembered host u w)).
Proof.
  intros Hmem Hunit Hlen.
  assert (Hne : getIndentUnit host (updateState u)
                <> getIndentUnit host state).
  { rewrite Hlen, Hunit. unfold toggleIndent.
    destruct (Z.eqb_spec (getIndentUnit host state) 2) as [->|Hn];
      simpl; lia. }
  split; [exact Hne|].
  rewrite update_run, Hmem.
  apply Z.eqb_neq in Hne. rewrite Hne. cbn [negb].
  rewrite orb_true_r. reflexivity.
Qed.

End PluginMore.

Lemma unlevelled_line_not_decorated_witness :
  (reqMap exampleRequest (number lineTop) = None
   \/ exists entry,
        reqMap exampleRequest (number lineTop) = Some entry
        /\ level entry = 0)
  /\ readLine exampleHost "  " exampleRequest [] lineTop
       (exampleWorld exampleLayout)
     = ([], exampleWorld exampleLayout).
Proof.
  assert (H : reqMap exampleRequest (number lineTop) = None
              \/ exists entry,
                   reqMap exampleRequest (number lineTop) = Some entry
                   /\ level entry = 0).
  { right. exists (mkIndentEntry 0 None). split; reflexivity. }
  split; [exact H|].
  exact (proj1 (unlevelled_line_not_decorated exampleHost "  "
                  exampleRequest lineTop H) [] (exampleWorld exampleLayout)).
Defined.

Lemma one_decoration_per_calibrated_line_witness :
  reqBuilder exampleRequest = []
  /\ map rangeFrom
       (decorations
          (plugin (snd (measure exampleHost exampleRequest
                          (exampleWorld exampleLayout)))))
     = map from
         (filter
            (calibrated
               (indentUnit exampleHost
                  (viewState (view (exampleWorld exampleLayout))))
               exampleRequest)
            (reqLines exampleRequest)).
Proof.
  split; [reflexivity|].
  exact (one_decoration_per_calibrated_line exampleHost exampleRequest
           (exampleWorld exampleLayout) eq_refl).
Defined.

Lemma decorations_sorted_witness :
  reqBuilder exampleRequest = []
  /\ StronglySorted Z.lt (map from (reqLines exampleRequest))
  /\ StronglySorted Z.lt
       (map rangeFrom
          (decorations
             (plugin (snd (measure exampleHost exampleRequest
                             (exampleWorld exampleLayout)))))).
Proof.
  assert (Hs : StronglySorted Z.lt (map from (reqLines exampleRequest))).
  { simpl. repeat (constructor; simpl; try lia). }
  split; [reflexivity|]. split; [exact Hs|].
  exact (decorations_sorted exampleHost exampleRequest
           (exampleWorld exampleLayout) eq_refl Hs).
Defined.

Lemma decoration_shape_witness :
  reqBuilder exampleRequest = []
  /\ In (mkRange 0 0
           (mkDecoration "cm-indent-markers"
              ("--indent-markers: "
               ++ makeBackgroundCSS (mkIndentEntry 1 None) "16px" false 1)))
       (decorations
          (plugin (snd (measure exampleHost exampleRequest
                          (exampleWorld exampleLayout)))))
  /\ exists css,
       "--indent-markers: "
       ++ makeBackgroundCSS (mkIndentEntry 1 None) "16px" false 1
       = "--indent-markers: " ++ css
       /\ css <> EmptyString.
Proof.
  assert (Hin :
    In (mkRange 0 0
          (mkDecoration "cm-indent-markers"
             ("--indent-markers: "
              ++ makeBackgroundCSS (mkIndentEntry 1 None) "16px" false 1)))
      (decorations
         (plugin (snd (measure exampleHost exampleRequest
                         (exampleWorld exampleLayout)))))).
  { left. reflexivity. }
  split; [reflexivity|]. split; [exact Hin|].
  exact (proj2 (proj2 (decoration_shape exampleHost exampleRequest
                         (exampleWorld exampleLayout) _ eq_refl Hin))).
Defined.

Lemma toggleIndent_regenerates_witness :
  unitWidth (plugin (exampleWorld exampleLayout))
  = getIndentUnit exampleHost exampleState
  /\ indentUnit exampleHost (exampleStateWith "    ")
     = toggleIndent exampleHost exampleState
  /\ getIndentUnit exampleHost (exampleStateWith "    ")
     = Z.of_nat
         (String.length (indentUnit exampleHost (exampleStateWith "    ")))
  /\ getIndentUnit exampleHost (exampleStateWith "    ")
     <> getIndentUnit exampleHost exampleState.
Proof.
  repeat (split; [reflexivity|]).
  exact (proj1 (toggleIndent_regenerates exampleHost exampleState
                  (mkUpdate (exampleStateWith "    ") false false)
                  (exampleWorld exampleLayout) eq_refl eq_refl eq_refl)).
Defined.

(* ================================================================= *)
(** * Facts about the theme *)

Lemma getProp_setProp key k v o :
  getProp key (setProp k v o)
  = if String.eqb k key then v else getProp key o.
Proof.
  induction o as [|[k' v'] rest IH]; [reflexivity|].
  cbn [setProp getProp].
  destruct (String.eqb_spec k' k) as [->|Hk]; cbn [getProp].
  - destruct (String.eqb k key); reflexivity.
  - rewrite IH.
    destruct (String.eqb_spec k' key) as [->|Hk'];
      destruct (String.eqb_spec k key) as [->|Hk'']; congruence.
Qed.

Lemma hasProp_In key o : hasProp key o = true <-> In key (map fst o).
Proof.
  induction o as [|[k v] rest IH]; cbn; [split; [discriminate|tauto]|].
  rewrite orb_true_iff, String.eqb_eq, IH. tauto.
Qed.

(** What [{...a, ...b}] holds under a key: the value of [b] when [b] has
    the key, that of [a] otherwise. *)
Lemma getProp_spread key a b :
  objectKeysDistinct b ->
  getProp key (spread a b)
  = if hasProp key b then getProp key b else getProp key a.
Proof.
  unfold spread, objectKeysDistinct. revert a.
  induction b as [|[k v] rest IH]; intros a Hnd; [reflexivity|].
  cbn [fold_left fst snd map] in *.
  inversion Hnd as [|? ? Hnotin Hnd']; subst.
  rewrite IH by exact Hnd'. cbn [hasProp getProp].
  rewrite getProp_setProp.
  destruct (String.eqb_spec k key) as [->|Hk]; cbn [orb].
  - destruct (hasProp key rest) eqn:Hh; [|reflexivity].
    apply hasProp_In in Hh. contradiction.
  - reflexivity.
Qed.

(** X14: a colour option replaces its own default and no other.  For an
    options object, each of the four theme variables holds the value the
    options give under its key ([light] and [activeLight] for the light
    rule, [dark] and [activeDark] for the dark rule) when the options have
    that key, and the default colour otherwise; properties under other
    keys have no effect; undefined options are the empty options. *)
Theorem indentTheme_colors options :
  objectKeysDistinct options ->
  getRule "&light" (indentTheme (Some options))
  = [("--indent-marker-bg-color",
      if hasProp "light" options then getProp "light" options
      else JString "#F0F1F2");
     ("--indent-marker-active-bg-color",
      if hasProp "activeLight" options then getProp "activeLight" options
      else JString "#E4E5E6")]
  /\ getRule "&dark" (indentTheme (Some options))
     = [("--indent-marker-bg-color",
         if hasProp "dark" options then getProp "dark" options
         else JString "#2B3245");
        ("--indent-marker-active-bg-color",
         if hasProp "activeDark" options then getProp "activeDark" options
         else JString "#3C445C")]
  /\ indentTheme None = indentTheme (Some []).
Proof.
  intros Hnd. unfold indentTheme. cbn [getRule String.eqb Ascii.eqb].
  rewrite !(getProp_spread _ defaultColors Hnd).
  repeat split.
Qed.

Lemma indentTheme_colors_witness :
  objectKeysDistinct [("dark", JString "#000000"); ("other", JNumber 1)]
  /\ getRule "&dark"
       (indentTheme
          (Some [("dark", JString "#000000"); ("other", JNumber 1)]))
     = [("--indent-marker-bg-color", JString "#000000");
        ("--indent-marker-active-bg-color", JString "#3C445C")].
Proof.
  assert (H : objectKeysDistinct
                [("dark", JString "#000000"); ("other", JNumber 1)]).
  { unfold objectKeysDistinct. simpl.
    repeat constructor; simpl; intuition discriminate. }
  split; [exact H|].
  exact (proj1 (proj2 (indentTheme_colors H))).
Defined.

(** X15: the names agree between the theme, the decorations and the
    gradients.  Whatever the colour options, the theme has a rule for the
    [::before] pseudo-element of the class of every committed decoration,
    whose background is the custom property that the decoration's style
    sets; and the custom property named in the gradient of a layer is
    given a value by both the light and the dark rule. *)
Theorem theme_matches_decorations host colorOptions request
    (w : World (EditorState host)) r thickness indentWidth l :
  reqBuilder request = [] ->
  In r (decorations (plugin (snd (measure host request w)))) ->
  (exists property css,
     style (rangeValue r) = property ++ ": " ++ css
     /\ getProp "background"
          (getRule ("." ++ class (rangeValue r) ++ "::before")
             (indentTheme colorOptions))
        = JString ("var(" ++ property ++ ")"))
  /\ (exists property rest,
        layerGradient thickness indentWidth l
        = "repeating-linear-gradient(to right, var(" ++ property ++ ")"
          ++ rest
        /\ hasProp property (getRule "&light" (indentTheme colorOptions))
           = true
        /\ hasProp property (getRule "&dark" (indentTheme colorOptions))
           = true).
Proof.
  intros Hb Hin.
  destruct (decoration_shape host request w r Hb Hin)
    as [_ [Hclass [css [Hstyle _]]]].
  split.
  - exists "--indent-markers", css. rewrite Hclass. split; [exact Hstyle|].
    reflexivity.
  - exists (markerCssProperty (colorRole l)). eexists. split.
    + unfold layerGradient, createGradient.
      repeat rewrite append_assoc. reflexivity.
    + destruct (colorRole l); split; reflexivity.
Qed.

Lemma theme_matches_decorations_witness :
  reqBuilder exampleRequest = []
  /\ In (mkRange 0 0
           (mkDecoration "cm-indent-markers"
              ("--indent-markers: "
               ++ makeBackgroundCSS (mkIndentEntry 1 None) "16px" false 1)))
       (decorations
          (plugin (snd (measure exampleHost exampleRequest
                          (exampleWorld exampleLayout)))))
  /\ exists property css,
       "--indent-markers: "
       ++ makeBackgroundCSS (mkIndentEntry 1 None) "16px" false 1
       = property ++ ": " ++ css
       /\ getProp "background"
            (getRule ".cm-indent-markers::before" (indentTheme None))
          = JString ("var(" ++ property ++ ")").
Proof.
  assert (Hin :
    In (mkRange 0 0
          (mkDecoration "cm-indent-markers"
             ("--indent-markers: "
              ++ makeBackgroundCSS (mkIndentEntry 1 None) "16px" false 1)))
      (decorations
         (plugin (snd (measure exampleHost exampleRequest
                         (exampleWorld exampleLayout)))))).
  { left. reflexivity. }
  split; [reflexivity|]. split; [exact Hin|].
  exact (proj1 (theme_matches_decorations exampleHost None exampleRequest
                  (exampleWorld exampleLayout) _ 1 "16px"
                  (mkLayer Normal 0 1) eq_refl Hin)).
Defined.

(* ================================================================= *)
(** * Cycles one after the other *)

Lemma lineRange_ext lay1 lay2 ius request line :
  (forall p, lay1 p = lay2 p) ->
  lineRange lay1 ius request line = lineRange lay2 ius request line.
Proof.
  intros H. unfold lineRange, lineWidth. now rewrite !H.
Qed.

(** X17: what the measure phase leaves in the builder depends on the world
    only through the layout and the indent unit of the view: two worlds
    that agree on these give the same decorations, whatever the focus, the
    remembered scalars, the decoration set, the queue or the console. *)
Theorem read_depends_on_layout_and_unit host request
    (w1 w2 : World (EditorState host)) :
  (forall p, layout (view w1) p = layout (view w2) p) ->
  indentUnit host (viewState (view w1))
  = indentUnit host (viewState (view w2)) ->
  fst (read host request w1) = fst (read host request w2).
Proof.
  intros Hlay Hunit.
  pose proof (read_run host request w1) as H1.
  pose proof (read_run host request w2) as H2.
  cbv zeta in H1, H2. rewrite H1, H2, Hunit. cbn [fst]. clear H1 H2.
  assert (He : forall lines,
    flat_map
      (lineRange (layout (view w1)) (indentUnit host (viewState (view w2)))
         request) lines
    = flat_map
        (lineRange (layout (view w2)) (indentUnit host (viewState (view w2)))
           request) lines).
  { induction lines as [|l rest IH]; [reflexivity|].
    cbn [flat_map]. rewrite IH.
    now rewrite (lineRange_ext _ _ _ request l Hlay). }
  now rewrite He.
Qed.

Lemma read_depends_on_layout_and_unit_witness :
  (forall p,
     layout (view (exampleWorld exampleLayout)) p
     = layout
         (view (snd (write exampleHost exampleRequest
                       (exampleWorld exampleLayout)))) p)
  /\ indentUnit exampleHost (viewState (view (exampleWorld exampleLayout)))
     = indentUnit exampleHost
         (viewState
            (view (snd (write exampleHost exampleRequest
                          (exampleWorld exampleLayout)))))
  /\ fst (read exampleHost exampleRequest (exampleWorld exampleLayout))
     = fst (read exampleHost exampleRequest
              (snd (write exampleHost exampleRequest
                      (exampleWorld exampleLayout)))).
Proof.
  assert (Hlay : forall p,
    layout (view (exampleWorld exampleLayout)) p
    = layout
        (view (snd (write exampleHost exampleRequest
                      (exampleWorld exampleLayout)))) p)
    by (intros p; reflexivity).
  split; [exact Hlay|]. split; [reflexivity|].
  exact (read_depends_on_layout_and_unit exampleHost exampleRequest
           (exampleWorld exampleLayout)
           (snd (write exampleHost exampleRequest
                   (exampleWorld exampleLayout)))
           Hlay eq_refl).
Defined.

(** X18: the last commit wins.  When two requests are measured and
    committed one after the other, or both measured and then both
    committed, the decoration set is in the end that of the second request,
    as if the first had never run. *)
Theorem last_commit_wins host request1 request2
    (w : World (EditorState host)) :
  decorations
    (plugin (snd (measure host request2 (snd (measure host request1 w)))))
  = finish (reqBuilder (fst (read host request2 w)))
  /\ decorations
       (plugin
          (snd (write host
                  (fst (read host request2 (snd (read host request1 w))))
                  (snd (write host (fst (read host request1 w))
                          (snd (read host request2
                                  (snd (read host request1 w)))))))))
     = finish (reqBuilder (fst (read host request2 w))).
Proof.
  split.
  - rewrite measure_decorations.
    unfold measure, bind.
    pose proof (read_run host request1 w) as H1. cbv zeta in H1.
    pose proof (read_run host request2 w) as H2. cbv zeta in H2.
    rewrite H1, H2. reflexivity.
  - pose proof (read_run host request1 w) as H1. cbv zeta in H1.
    pose proof (read_run host request2 w) as H2. cbv zeta in H2.
    rewrite H1, H2. cbn [fst snd].
    pose proof (read_run host request2
                  (mkWorld (plugin w) (view w)
                     (console w
                      ++ flat_map
                           (lineConsole (layout (view w))
                              (indentUnit host (viewState (view w)))
                              request1)
                           (reqLines request1))%list
                     (layoutQueries w
                      ++ flat_map
                           (lineQueries
                              (indentUnit host (viewState (view w)))
                              request1)
                           (reqLines request1))%list)) as H3.
    cbv zeta in H3. cbn [view plugin console layoutQueries] in H3.
    rewrite H3. reflexivity.
Qed.
